(** * The peer pool of status-go (package [peers]): topic pools and the pool
    that dispatches the p2p server's peer events to them.

    Shallow embedding of [geth/peers/peerpool.go] and of the topic-pool file
    of the same package.  Every method runs to completion under the mutex it
    takes, so the model is sequential: a method is a function from the
    receiver and the world (p2p server, peer caches, monotonic clock) to the
    receiver and the world afterwards.  What Go leaves to the runtime (the
    order of [range] over a map, which ready case a [select] takes) is an
    explicit argument of the function that depends on it. *)

From Stdlib Require Import ZArith Lia.
From stdpp Require Import base option list gmap strings.

Open Scope Z_scope.

(** ** Go values: fixed-width integers, faults, channels *)

Module go.

(* Two's complement wrap-around of a [w]-bit signed integer. *)
Definition wrap (w : Z) (z : Z) : Z := (z + 2 ^ (w - 1)) mod 2 ^ w - 2 ^ (w - 1).

(* [int] (64-bit targets), [int64], [time.Duration], [mclock.AbsTime]. *)
Definition wrap64 : Z -> Z := wrap 64.

Definition int64 (z : Z) : Prop := - 2 ^ 63 <= z < 2 ^ 63.

(* The ways a statement of this package can fail to complete. *)
Inductive fault : Type :=
| SendOnNilChannel        (* blocks forever *)
| SendOnClosedChannel     (* panic *)
| CloseOfNilChannel       (* panic *)
| CloseOfClosedChannel    (* panic *)
| NilDereference.         (* panic: method or field through a nil handle *)

Inductive result (A : Type) : Type :=
| Ok (a : A)
| Fault (f : fault).

Arguments Ok {A} a.
Arguments Fault {A} f.

Definition bind {A B : Type} (m : result A) (k : A -> result B) : result B :=
  match m with
  | Ok a => k a
  | Fault f => Fault f
  end.

(* A channel value: the nil channel, or a channel with the values sent and
   not yet received.  The capacity is not part of the model: a send that
   finds the buffer full waits for the receiver, which is another
   goroutine. *)
Inductive chan (A : Type) : Type :=
| ChanNil
| ChanOpen (buf : list A)
| ChanClosed (buf : list A).

Arguments ChanNil {A}.
Arguments ChanOpen {A} buf.
Arguments ChanClosed {A} buf.

(* make(chan A, n) *)
Definition make {A : Type} : chan A := ChanOpen [].

(* c <- v *)
Definition send {A : Type} (c : chan A) (v : A) : result (chan A) :=
  match c with
  | ChanNil => Fault SendOnNilChannel
  | ChanOpen buf => Ok (ChanOpen (buf ++ [v]))
  | ChanClosed _ => Fault SendOnClosedChannel
  end.

(* close(c) *)
Definition close {A : Type} (c : chan A) : result (chan A) :=
  match c with
  | ChanNil => Fault CloseOfNilChannel
  | ChanOpen buf => Ok (ChanClosed buf)
  | ChanClosed _ => Fault CloseOfClosedChannel
  end.

(* v := <-c, when the receive can proceed: the value (None for the zero value
   of a closed and drained channel) and the channel afterwards. *)
Definition recv {A : Type} (c : chan A) : option (option A * chan A) :=
  match c with
  | ChanNil => None
  | ChanOpen [] => None
  | ChanOpen (v :: buf) => Some (Some v, ChanOpen buf)
  | ChanClosed [] => Some (None, ChanClosed [])
  | ChanClosed (v :: buf) => Some (Some v, ChanClosed buf)
  end.

(* A [chan struct{}] made without buffer and never sent on, as the quit
   channels are: it carries no value and a receive proceeds exactly when the
   channel is closed. *)
Inductive signal : Type :=
| SigNil
| SigOpen
| SigClosed.

(* q == nil *)
Definition is_nil (q : signal) : bool :=
  match q with
  | SigNil => true
  | _ => false
  end.

(* whether [case <-q] of a select is ready *)
Definition ready (q : signal) : bool :=
  match q with
  | SigClosed => true
  | _ => false
  end.

(* close(q) *)
Definition close_signal (q : signal) : result signal :=
  match q with
  | SigNil => Fault CloseOfNilChannel
  | SigOpen => Ok SigClosed
  | SigClosed => Fault CloseOfClosedChannel
  end.

End go.

#[global] Instance result_ret : MRet go.result := @go.Ok.
#[global] Instance result_bind : MBind go.result := fun A B k m => go.bind m k.

(** ** The packages the pool is written against *)

Module time.

(* time.Duration: int64 nanoseconds. *)
Definition Duration : Type := Z.

Definition Nanosecond : Duration := 1.
Definition Second : Duration := 1000000000 * Nanosecond.
Definition Minute : Duration := 60 * Second.

End time.

Module mclock.

(* mclock.AbsTime: int64 nanoseconds of the monotonic clock. *)
Definition AbsTime : Type := Z.

(* The clock as the readings it will give: [readings i] is what the [i]-th
   call of [Now] returns, [reads] the number of calls made so far. *)
Record Clock : Type := mkClock {
  readings : nat -> AbsTime;
  reads : nat
}.

Definition Now (c : Clock) : AbsTime * Clock :=
  (readings c (reads c), mkClock (readings c) (S (reads c))).

End mclock.

Module discv5.

(* discv5.NodeID is [64]byte, read here as a 512-bit number. *)
Abbreviation NodeID := N.

Definition Topic : Type := string.

Record Node : Type := mkNode {
  ID : NodeID;
  IP : list Byte.byte;
  UDP : N;
  TCP : N
}.

(* *discv5.Network, the handle of a running discovery listener. *)
Definition Network : Type := nat.

End discv5.

Module discover.

(* discover.NodeID has the representation of discv5.NodeID; the conversions
   between the two are the identity. *)
Abbreviation NodeID := N.

Record Node : Type := mkNode {
  ID : NodeID;
  IP : list Byte.byte;
  UDP : N;
  TCP : N
}.

Definition NewNode (id : NodeID) (ip : list Byte.byte) (udp tcp : N) : Node :=
  mkNode id ip udp tcp.

End discover.

Module params.

(** Modelled from the spec: Limits, the pair (min, max) of a topic
    ([geth/params] is not among the sources).  The pool reads it as
    limits[0] and limits[1], here [fst] and [snd]. *)
Definition Limits : Type := (Z * Z)%type.

End params.

Module p2p.

Inductive PeerEventType : Type :=
| PeerEventTypeAdd
| PeerEventTypeDrop
| PeerEventTypeMsgSend
| PeerEventTypeMsgRecv.

Record PeerEvent : Type := mkPeerEvent {
  Type_ : PeerEventType;
  Peer : discover.NodeID;
  Error : string
}.

(* What the package asks of the server and of the handles the server gave
   it, in the order asked. *)
Inductive request : Type :=
| AddPeer (n : discover.Node)
| RemovePeer (n : discover.Node)
| SubscribeEvents
| Unsubscribe
| SearchTopic (topic : discv5.Topic)
| Close (ntab : discv5.Network).

Record Server : Type := mkServer {
  Self : discover.Node;
  DiscV5 : option discv5.Network;
  requests : list request
}.

Definition ask (r : request) (s : Server) : Server :=
  mkServer (Self s) (DiscV5 s) (requests s ++ [r]).

Definition set_DiscV5 (d : option discv5.Network) (s : Server) : Server :=
  mkServer (Self s) d (requests s).

End p2p.

(** ** Package peers *)

(* The errors the package returns. *)
Inductive error : Type :=
| ErrDiscv5NotRunning
| StorageUnavailable.

Module Cache.

(** Modelled from the spec: the Peer Cache ([geth/peers/cache.go] is not among
    the sources), a persistent map from (topic, node-id) to a node record
    over a backing store that may be unwritable. *)
Record t : Type := mk {
  records : gmap (discv5.Topic * discv5.NodeID) discv5.Node;
  writable : bool
}.

(** Modelled from the spec: AddPeer(node, topic) records (topic, node.id) ->
    node, the last write winning; it fails with StorageUnavailable if the
    backing store is unwritable. *)
Definition AddPeer (node : discv5.Node) (topic : discv5.Topic) (c : t) : t * option error :=
  if writable c
  then (mk (<[(topic, discv5.ID node) := node]> (records c)) (writable c), None)
  else (c, Some StorageUnavailable).

(** Modelled from the spec: RemovePeer(nodeID, topic) deletes the entry;
    missing keys are not an error. *)
Definition RemovePeer (nodeID : discv5.NodeID) (topic : discv5.Topic) (c : t) : t * option error :=
  if writable c
  then (mk (delete (topic, nodeID) (records c)) (writable c), None)
  else (c, Some StorageUnavailable).

(** Modelled from the spec: GetPeersRange(topic, n) returns up to n cached
    nodes of the topic, in an order that is stable absent mutation. *)
Definition GetPeersRange (topic : discv5.Topic) (n : nat) (c : t) : list discv5.Node :=
  take n (snd <$> filter (fun kv => fst (fst kv) = topic) (map_to_list (records c))).

End Cache.

(* The world a method runs in: the one p2p server every method is handed,
   the caches *Cache handles point to, and the monotonic clock. *)
Record World : Type := mkWorld {
  server : p2p.Server;
  caches : gmap nat Cache.t;
  clock : mclock.Clock
}.

Definition ask (r : p2p.request) (w : World) : World :=
  mkWorld (p2p.ask r (server w)) (caches w) (clock w).

Definition set_server (s : p2p.Server) (w : World) : World :=
  mkWorld s (caches w) (clock w).

Definition Now (w : World) : mclock.AbsTime * World :=
  (fst (mclock.Now (clock w)), mkWorld (server w) (caches w) (snd (mclock.Now (clock w)))).

(* c.AddPeer(node, topic) and c.RemovePeer(id, topic) through a *Cache; the
   callers log the error and go on. *)
Definition cache_AddPeer (c : nat) (node : discv5.Node) (topic : discv5.Topic) (w : World) : World :=
  mkWorld (server w) (alter (fun x => fst (Cache.AddPeer node topic x)) c (caches w)) (clock w).

Definition cache_RemovePeer (c : nat) (nodeID : discv5.NodeID) (topic : discv5.Topic) (w : World) : World :=
  mkWorld (server w) (alter (fun x => fst (Cache.RemovePeer nodeID topic x)) c (caches w)) (clock w).

Definition cache_GetPeersRange (c : nat) (topic : discv5.Topic) (n : nat) (w : World) : list discv5.Node :=
  match caches w !! c with
  | Some x => Cache.GetPeersRange topic n x
  | None => []
  end.

(* expirationPeriod is a amount of time while peer is considered as a connectable *)
Definition expirationPeriod : time.Duration := 60 * time.Minute.
Definition DefaultFastSync : time.Duration := 3 * time.Second.
Definition DefaultSlowSync : time.Duration := 30 * time.Minute.

Module peerInfo.

Record t : Type := mk {
  discoveredTime : mclock.AbsTime;
  connected : bool;
  requested : bool;
  node : discv5.Node
}.

Definition set_discoveredTime (x : mclock.AbsTime) (p : t) : t :=
  mk x (connected p) (requested p) (node p).

Definition set_connected (x : bool) (p : t) : t :=
  mk (discoveredTime p) x (requested p) (node p).

Definition set_requested (x : bool) (p : t) : t :=
  mk (discoveredTime p) (connected p) x (node p).

End peerInfo.

(** ** TopicPool manages peers for topic *)

Module TopicPool.

(* The struct.  [mu], [discvWG] and [consumerWG] only order the goroutines
   and have no field here.  [foundChan] and [lookupChan] are the channels
   [found] and [lookup] that StartSearch makes and hands to its two
   goroutines. *)
Record t : Type := mk {
  topic : discv5.Topic;
  limits : params.Limits;
  slowSync : time.Duration;
  fastSync : time.Duration;
  quit : go.signal;
  running : Z;
  connected : Z;
  peers : gmap discv5.NodeID peerInfo.t;
  period : go.chan time.Duration;
  cache : option nat;
  foundChan : go.chan discv5.Node;
  lookupChan : go.chan bool
}.

Definition set_quit (x : go.signal) (p : t) : t :=
  mk (topic p) (limits p) (slowSync p) (fastSync p) x (running p) (connected p)
     (peers p) (period p) (cache p) (foundChan p) (lookupChan p).

Definition set_running (x : Z) (p : t) : t :=
  mk (topic p) (limits p) (slowSync p) (fastSync p) (quit p) x (connected p)
     (peers p) (period p) (cache p) (foundChan p) (lookupChan p).

Definition set_connected (x : Z) (p : t) : t :=
  mk (topic p) (limits p) (slowSync p) (fastSync p) (quit p) (running p) x
     (peers p) (period p) (cache p) (foundChan p) (lookupChan p).

Definition set_peers (x : gmap discv5.NodeID peerInfo.t) (p : t) : t :=
  mk (topic p) (limits p) (slowSync p) (fastSync p) (quit p) (running p) (connected p)
     x (period p) (cache p) (foundChan p) (lookupChan p).

Definition set_period (x : go.chan time.Duration) (p : t) : t :=
  mk (topic p) (limits p) (slowSync p) (fastSync p) (quit p) (running p) (connected p)
     (peers p) x (cache p) (foundChan p) (lookupChan p).

Definition set_foundChan (x : go.chan discv5.Node) (p : t) : t :=
  mk (topic p) (limits p) (slowSync p) (fastSync p) (quit p) (running p) (connected p)
     (peers p) (period p) (cache p) x (lookupChan p).

Definition set_lookupChan (x : go.chan bool) (p : t) : t :=
  mk (topic p) (limits p) (slowSync p) (fastSync p) (quit p) (running p) (connected p)
     (peers p) (period p) (cache p) (foundChan p) x.

(* NewTopicPool returns instance of TopicPool *)
Definition NewTopicPool (topic : discv5.Topic) (limits : params.Limits)
    (slowSync fastSync : time.Duration) : t :=
  mk topic limits slowSync fastSync go.SigNil 0 0 ∅ go.ChanNil None go.ChanNil go.ChanNil.

(* SearchRunning returns true if search is running *)
Definition SearchRunning (p : t) : bool := running p =? 1.

(* MaxReached returns true if we connected with max number of peers. *)
Definition MaxReached (p : t) : bool := connected p =? snd (limits p).

(* BelowMin returns true if current number of peers is below min limit. *)
Definition BelowMin (p : t) : bool := connected p <? fst (limits p).

Definition addPeer (info : peerInfo.t) (w : World) : World :=
  ask (p2p.AddPeer (discover.NewNode
         (discv5.ID (peerInfo.node info))
         (discv5.IP (peerInfo.node info))
         (discv5.UDP (peerInfo.node info))
         (discv5.TCP (peerInfo.node info)))) w.

Definition removePeer (info : peerInfo.t) (w : World) : World :=
  ask (p2p.RemovePeer (discover.NewNode
         (discv5.ID (peerInfo.node info))
         (discv5.IP (peerInfo.node info))
         (discv5.UDP (peerInfo.node info))
         (discv5.TCP (peerInfo.node info)))) w.

(* ConfirmAdded called when peer was added by p2p Server *)
Definition ConfirmAdded (p : t) (nodeID : discover.NodeID) (w : World) : go.result (t * World) :=
  match peers p !! nodeID with
  | None => go.Ok (p, w)
  | Some peer =>
    (* established connection means that the node is a viable candidate *)
    let w := match cache p with
             | Some c => cache_AddPeer c (peerInfo.node peer) (topic p) w
             | None => w
             end in
    (* when max limit is reached drop every peer after *)
    if connected p =? snd (limits p) then
      let peer := peerInfo.set_requested true peer in
      go.Ok (set_peers (<[nodeID := peer]> (peers p)) p, removePeer peer w)
    else
      (* don't count same peer twice *)
      let p := if negb (peerInfo.connected peer)
               then set_connected (go.wrap64 (connected p + 1))
                      (set_peers (<[nodeID := peerInfo.set_connected true peer]> (peers p)) p)
               else p in
      if SearchRunning p && (connected p =? fst (limits p)) then
        period' ← go.send (period p) (slowSync p);
        go.Ok (set_period period' p, w)
      else go.Ok (p, w)
  end.

(* The loop that ends ConfirmDropped: [range t.peers] visits the keys in
   [order]; the clock is read only for a peer that is not connected. *)
Fixpoint replacement (peers : gmap discv5.NodeID peerInfo.t) (order : list discv5.NodeID)
    (w : World) : option peerInfo.t * World :=
  match order with
  | [] => (None, w)
  | k :: order =>
    match peers !! k with
    | None => replacement peers order w
    | Some peer =>
      if negb (peerInfo.connected peer) then
        let (now, w) := Now w in
        if now <? go.wrap64 (peerInfo.discoveredTime peer + expirationPeriod)
        then (Some peer, addPeer peer w)
        else replacement peers order w
      else replacement peers order w
    end
  end.

(* ConfirmDropped called when server receives drop event *)
Definition ConfirmDropped (p : t) (nodeID : discover.NodeID) (reason : string)
    (order : list discv5.NodeID) (w : World)
    : go.result (option peerInfo.t * bool * t * World) :=
  (* either inbound or connected from another topic *)
  match peers p !! nodeID with
  | None => go.Ok (None, true, p, w)
  | Some peer =>
    if peerInfo.requested peer then go.Ok (None, true, p, w)
    else
      p ← (if SearchRunning p && (connected p =? fst (limits p))
           then period' ← go.send (period p) (fastSync p);
                go.Ok (set_period period' p)
           else go.Ok p);
      let p := set_connected (go.wrap64 (connected p - 1)) p in
      let w := removePeer peer w in
      let p := set_peers (delete nodeID (peers p)) p in
      let w := match cache p with
               | Some c => cache_RemovePeer c nodeID (topic p) w
               | None => w
               end in
      let (info, w) := replacement (peers p) order w in
      go.Ok (info, false, p, w)
  end.

(* processFoundNode called when node is discovered by kademlia search query *)
Definition processFoundNode (p : t) (node : discv5.Node) (w : World) : t * World :=
  let (now, w) := Now w in
  let info := match peers p !! discv5.ID node with
              | Some info => peerInfo.set_discoveredTime now info
              | None => peerInfo.mk now false false node
              end in
  let p := set_peers (<[discv5.ID node := info]> (peers p)) p in
  if (connected p <? snd (limits p)) && negb (peerInfo.connected info)
  then (p, addPeer info w)
  else (p, w).

(* The seeding loop of StartSearch: found <- peer for every cached peer. *)
Fixpoint seed (found : go.chan discv5.Node) (cached : list discv5.Node)
    : go.result (go.chan discv5.Node) :=
  match cached with
  | [] => go.Ok found
  | peer :: cached => found ← go.send found peer; seed found cached
  end.

(* StartSearch creates discv5 queries and runs a loop to consume found peers.
   The two goroutines it starts are the SearchTopic request recorded at the
   server and the consumer [handleFoundPeers] below. *)
Definition StartSearch (p : t) (w : World) : go.result (option error * t * World) :=
  if running p =? 1 then go.Ok (None, p, w)
  else
    match p2p.DiscV5 (server w) with
    | None => go.Ok (Some ErrDiscv5NotRunning, p, w)
    | Some _ =>
      let p := set_running 1 p in
      let p := set_quit go.SigOpen p in
      let p := set_period go.make p in
      let p := set_quit go.SigOpen p in
      let found := go.make in
      let lookup := go.make in
      found ← match cache p with
              | Some c => seed found (cache_GetPeersRange c (topic p) 5 w)
              | None => go.Ok found
              end;
      let w := ask (p2p.SearchTopic (topic p)) w in
      go.Ok (None, set_lookupChan lookup (set_foundChan found p), w)
    end.

(* handleFoundPeers, before its loop: the first period. *)
Definition handleFoundPeers_enter (p : t) : go.result t :=
  period' ← go.send (period p)
              (if fst (limits p) <=? connected p then slowSync p else fastSync p);
  go.Ok (set_period period' p).

(* The case a select of the consumer takes. *)
Inductive selected : Type :=
| SelQuit
| SelLookup
| SelFound.

(* One turn of the for/select loop of handleFoundPeers taking the case
   [sel]: None when that case is not ready, otherwise whether the loop goes
   on, and the state it leaves. *)
Definition handleFoundPeers_turn (sel : selected) (p : t) (w : World)
    : option (go.result (bool * t * World)) :=
  let selfID : discv5.NodeID := discover.ID (p2p.Self (server w)) in
  match sel with
  | SelQuit => if go.ready (quit p) then Some (go.Ok (false, p, w)) else None
  | SelLookup =>
    match go.recv (lookupChan p) with
    | Some (_, c) => Some (go.Ok (true, set_lookupChan c p, w))
    | None => None
    end
  | SelFound =>
    match go.recv (foundChan p) with
    | Some (Some node, c) =>
      let p := set_foundChan c p in
      if negb (discv5.ID node =? selfID)%N
      then let (p, w) := processFoundNode p node w in Some (go.Ok (true, p, w))
      else Some (go.Ok (true, p, w))
    | Some (None, c) => Some (go.Fault go.NilDereference)
    | None => None
    end
  end.

(* StopSearch stops the closes stop *)
Definition StopSearch (p : t) : go.result t :=
  if negb (SearchRunning p) then go.Ok p
  else if go.is_nil (quit p) then go.Ok p
  else if go.ready (quit p) then go.Ok p
  else
    q ← go.close_signal (quit p);
    let p := set_quit q p in
    let p := set_running 0 p in
    period' ← go.close (period p);
    go.Ok (set_period period' p).

End TopicPool.

(** ** PeerPool manages discovered peers and connects them to p2p server *)

Module PeerPool.

(* The struct; [mu] and [wg] have no field.  [serverSubscription] is nil
   (None) until Start subscribes. *)
Record t : Type := mk {
  config : gmap discv5.Topic params.Limits;
  fastSync : time.Duration;
  slowSync : time.Duration;
  cache : option nat;
  stopOnMax : bool;
  topics : list TopicPool.t;
  serverSubscription : option unit;
  quit : go.signal
}.

Definition set_topics (x : list TopicPool.t) (p : t) : t :=
  mk (config p) (fastSync p) (slowSync p) (cache p) (stopOnMax p) x
     (serverSubscription p) (quit p).

Definition set_serverSubscription (x : option unit) (p : t) : t :=
  mk (config p) (fastSync p) (slowSync p) (cache p) (stopOnMax p) (topics p) x (quit p).

Definition set_quit (x : go.signal) (p : t) : t :=
  mk (config p) (fastSync p) (slowSync p) (cache p) (stopOnMax p) (topics p)
     (serverSubscription p) x.

(* NewPeerPool creates instance of PeerPool *)
Definition NewPeerPool (config : gmap discv5.Topic params.Limits)
    (fastSync slowSync : time.Duration) (cache : option nat) (stopOnMax : bool) : t :=
  mk config fastSync slowSync cache stopOnMax [] None go.SigNil.

(* The loop of Start: [range p.config] visits the topics in [order]. *)
Fixpoint startTopics (p : t) (order : list discv5.Topic) (w : World)
    : go.result (option error * t * World) :=
  match order with
  | [] => go.Ok (None, p, w)
  | topic :: order =>
    match config p !! topic with
    | None => startTopics p order w
    | Some limits =>
      let topicPool := TopicPool.NewTopicPool topic limits (slowSync p) (fastSync p) in
      r ← TopicPool.StartSearch topicPool w;
      match r with
      | (Some err, _, w) => go.Ok (Some err, p, w)
      | (None, topicPool, w) => startTopics (set_topics (topics p ++ [topicPool]) p) order w
      end
    end
  end.

(* Start creates discovery search query for each topic and consumes peers
   found in that topic in separate loop. *)
Definition Start (p : t) (order : list discv5.Topic) (w : World)
    : go.result (option error * t * World) :=
  match p2p.DiscV5 (server w) with
  | None => go.Ok (Some ErrDiscv5NotRunning, p, w)
  | Some _ =>
    let p := set_quit go.SigOpen p in
    let p := set_topics [] p in
    r ← startTopics p order w;
    match r with
    | (Some err, p, w) => go.Ok (Some err, p, w)
    | (None, p, w) =>
      let w := ask p2p.SubscribeEvents w in
      go.Ok (None, set_serverSubscription (Some ()) p, w)
    end
  end.

(* The variables of handleServerPeers: the pools to search again, as
   positions in [p.topics], and whether the retry timer is armed. *)
Record dispatch : Type := mkDispatch {
  toSearch : list nat;
  retryDiscv5 : bool
}.

(* for _, t := range toSearch { _ = t.StartSearch(server) } *)
Fixpoint startSearches (toSearch : list nat) (topics : list TopicPool.t) (w : World)
    : go.result (list TopicPool.t * World) :=
  match toSearch with
  | [] => go.Ok (topics, w)
  | i :: toSearch =>
    match topics !! i with
    | None => startSearches toSearch topics w
    | Some topicPool =>
      r ← TopicPool.StartSearch topicPool w;
      startSearches toSearch (<[i := snd (fst r)]> topics) (snd r)
    end
  end.

(** Modelled from the spec: StartDiscv5(server), the bring-up of the UDP
    listener ([geth/peers/discv5.go] is not among the sources), is opaque to
    the pool; [bringup] is what it returns when called: a handle, or None for
    an error. *)
Definition StartDiscv5 (bringup : option discv5.Network) (s : p2p.Server)
    : option discv5.Network := bringup.

(* runListener, the closure of handleServerPeers *)
Definition runListener (bringup : option discv5.Network) (d : dispatch) (p : t) (w : World)
    : go.result (dispatch * t * World) :=
  let search (w : World) :=
    r ← startSearches (toSearch d) (topics p) w;
    go.Ok (mkDispatch [] (retryDiscv5 d), set_topics (fst r) p, snd r) in
  match p2p.DiscV5 (server w) with
  | None =>
    match StartDiscv5 bringup (server w) with
    | None => go.Ok (mkDispatch (toSearch d) true, p, w)
    | Some ntab => search (set_server (p2p.set_DiscV5 (Some ntab) (server w)) w)
    end
  | Some _ => search w
  end.

(* The loop over p.topics of the drop branch; [i] is the position of the
   first pool of [topics] in p.topics, [orders i] the order in which the
   [i]-th pool ranges over its peers. *)
Fixpoint confirmDropped (nodeID : discover.NodeID) (reason : string)
    (orders : nat -> list discv5.NodeID) (i : nat) (topics : list TopicPool.t)
    (toSearch : list nat) (w : World) : go.result (list TopicPool.t * list nat * World) :=
  match topics with
  | [] => go.Ok ([], toSearch, w)
  | topicPool :: topics =>
    r ← TopicPool.ConfirmDropped topicPool nodeID reason (orders i) w;
    let '(_, ignored, topicPool, w) := r in
    (* if it was min and one peer is dropped then current connections are below limit *)
    let toSearch := if TopicPool.BelowMin topicPool && negb ignored
                    then toSearch ++ [i] else toSearch in
    r ← confirmDropped nodeID reason orders (S i) topics toSearch w;
    let '(topics, toSearch, w) := r in
    go.Ok (topicPool :: topics, toSearch, w)
  end.

(* The loop over p.topics of the add branch. *)
Fixpoint confirmAdded (stopOnMax : bool) (nodeID : discover.NodeID)
    (topics : list TopicPool.t) (total : Z) (w : World)
    : go.result (list TopicPool.t * Z * World) :=
  match topics with
  | [] => go.Ok ([], total, w)
  | topicPool :: topics =>
    r ← TopicPool.ConfirmAdded topicPool nodeID w;
    let '(topicPool, w) := r in
    r ← (if stopOnMax && TopicPool.MaxReached topicPool
         then topicPool ← TopicPool.StopSearch topicPool;
              go.Ok (topicPool, go.wrap64 (total + 1))
         else go.Ok (topicPool, total));
    let '(topicPool, total) := r in
    r ← confirmAdded stopOnMax nodeID topics total w;
    let '(topics, total, w) := r in
    go.Ok (topicPool :: topics, total, w)
  end.

(* server.DiscV5.Close(); server.DiscV5 = nil.  Close is a method of
   *discv5.Network that works on the receiver's fields: through a nil
   handle the call is a nil dereference. *)
Definition closeDiscV5 (w : World) : go.result World :=
  match p2p.DiscV5 (server w) with
  | None => go.Fault go.NilDereference
  | Some ntab =>
    go.Ok (set_server (p2p.set_DiscV5 None (p2p.ask (p2p.Close ntab) (server w))) w)
  end.

(* The case a select of handleServerPeers takes; the event is the one
   received from the events channel. *)
Inductive selected : Type :=
| SelQuit
| SelRetryDiscv5
| SelEvent (event : p2p.PeerEvent).

(* One turn of the for/select loop of handleServerPeers taking the case
   [sel]: None when that case is not ready, otherwise whether the loop goes
   on, and the state it leaves. *)
Definition handleServerPeers_turn (bringup : option discv5.Network)
    (orders : nat -> list discv5.NodeID) (sel : selected)
    (d : dispatch) (p : t) (w : World)
    : option (go.result (bool * dispatch * t * World)) :=
  match sel with
  | SelQuit => if go.ready (quit p) then Some (go.Ok (false, d, p, w)) else None
  | SelRetryDiscv5 =>
    if retryDiscv5 d
    then Some (r ← runListener bringup (mkDispatch (toSearch d) false) p w;
               go.Ok (true, fst (fst r), snd (fst r), snd r))
    else None
  | SelEvent event =>
    Some
      match p2p.Type_ event with
      | p2p.PeerEventTypeDrop =>
        r ← confirmDropped (p2p.Peer event) (p2p.Error event) orders 0 (topics p)
              (toSearch d) w;
        let '(topics, toSearch, w) := r in
        let d := mkDispatch toSearch (retryDiscv5 d) in
        let p := set_topics topics p in
        if negb (length toSearch =? 0)%nat && stopOnMax p
        then r ← runListener bringup d p w;
             go.Ok (true, fst (fst r), snd (fst r), snd r)
        else go.Ok (true, d, p, w)
      | p2p.PeerEventTypeAdd =>
        r ← confirmAdded (stopOnMax p) (p2p.Peer event) (topics p) 0 w;
        let '(topics, total, w) := r in
        let p := set_topics topics p in
        if stopOnMax p && (total =? Z.of_nat (size (config p)))
        then w ← closeDiscV5 w; go.Ok (true, d, p, w)
        else go.Ok (true, d, p, w)
      | _ => go.Ok (true, d, p, w)
      end
  end.

(* for _, t := range p.topics { t.StopSearch() } *)
Fixpoint stopSearches (topics : list TopicPool.t) : go.result (list TopicPool.t) :=
  match topics with
  | [] => go.Ok []
  | topicPool :: topics =>
    topicPool ← TopicPool.StopSearch topicPool;
    topics ← stopSearches topics;
    go.Ok (topicPool :: topics)
  end.

(* Stop closes pool quit channel and all channels that are watched by search
   queries and waits till all goroutines will exit. *)
Definition Stop (p : t) (w : World) : go.result (t * World) :=
  (* pool wasn't started *)
  if go.is_nil (quit p) then go.Ok (p, w)
  else if go.ready (quit p) then go.Ok (p, w)
  else
    q ← go.close_signal (quit p);
    let p := set_quit q p in
    match serverSubscription p with
    | None => go.Fault go.NilDereference
    | Some _ =>
      let w := ask p2p.Unsubscribe w in
      topics ← stopSearches (topics p);
      go.Ok (set_topics topics p, w)
    end.

End PeerPool.

(** ** Vocabulary of the properties *)

(* The calls the peer pool and the consumer make on a topic pool. *)
Inductive call : Type :=
| CallConfirmAdded (nodeID : discover.NodeID)
| CallConfirmDropped (nodeID : discover.NodeID) (reason : string) (order : list discv5.NodeID)
| CallProcessFoundNode (node : discv5.Node).

Definition step (c : call) (p : TopicPool.t) (w : World) : go.result (TopicPool.t * World) :=
  match c with
  | CallConfirmAdded nodeID => TopicPool.ConfirmAdded p nodeID w
  | CallConfirmDropped nodeID reason order =>
    r ← TopicPool.ConfirmDropped p nodeID reason order w;
    go.Ok (snd (fst r), snd r)
  | CallProcessFoundNode node => go.Ok (TopicPool.processFoundNode p node w)
  end.

Fixpoint run (cs : list call) (p : TopicPool.t) (w : World) : go.result (TopicPool.t * World) :=
  match cs with
  | [] => go.Ok (p, w)
  | c :: cs => r ← step c p w; run cs (fst r) (snd r)
  end.

(* The number of PeerInfo entries of the table whose connected flag is true. *)
Definition is_connected (kv : discv5.NodeID * peerInfo.t) : Prop :=
  peerInfo.connected (snd kv) = true.

Definition connectedPeers (p : TopicPool.t) : Z :=
  Z.of_nat (size (filter is_connected (TopicPool.peers p))).

(* While the search is running the period channel is open: StartSearch
   makes it when it sets [running], StopSearch clears [running] before it
   closes it. *)
Definition period_open (p : TopicPool.t) : Prop :=
  TopicPool.SearchRunning p = true -> exists buf, TopicPool.period p = go.ChanOpen buf.

(* The table has an entry for the node on which requested is set. *)
Definition requested_in (nodeID : discv5.NodeID) (p : TopicPool.t) : Prop :=
  exists peer, TopicPool.peers p !! nodeID = Some peer /\ peerInfo.requested peer = true.

(* The node the pool hands to the server for a PeerInfo. *)
Definition dialled (info : peerInfo.t) : discover.Node :=
  discover.NewNode
    (discv5.ID (peerInfo.node info))
    (discv5.IP (peerInfo.node info))
    (discv5.UDP (peerInfo.node info))
    (discv5.TCP (peerInfo.node info)).

(** ** A concrete setting: one topic, a server with discovery running *)

Module Example.

Definition self : discover.Node := discover.mkNode 1000%N [] 30303%N 30303%N.

Definition server0 : p2p.Server := p2p.mkServer self (Some 0%nat) [].

Definition clock0 : mclock.Clock := mclock.mkClock (fun i => 1000 + Z.of_nat i) 0.

Definition world0 : World := mkWorld server0 ∅ clock0.

Definition n1 : discv5.Node := discv5.mkNode 1%N [] 30303%N 30303%N.
Definition n2 : discv5.Node := discv5.mkNode 2%N [] 30303%N 30303%N.
Definition n3 : discv5.Node := discv5.mkNode 3%N [] 30303%N 30303%N.

(* A topic pool that was never started. *)
Definition fresh : TopicPool.t :=
  TopicPool.NewTopicPool "A" (1, 2) DefaultSlowSync DefaultFastSync.

(* The pool and the world once the search is started and the calls [cs]
   are made. *)
Definition after (cs : list call) : TopicPool.t * World :=
  match TopicPool.StartSearch fresh world0 with
  | go.Ok (_, p, w) =>
    match run cs p w with
    | go.Ok r => r
    | go.Fault _ => (p, w)
    end
  | go.Fault _ => (fresh, world0)
  end.

(* Three nodes found, the first two confirmed: the topic is at its maximum. *)
Definition full : TopicPool.t * World :=
  after [CallProcessFoundNode n1; CallProcessFoundNode n2; CallProcessFoundNode n3;
         CallConfirmAdded 1%N; CallConfirmAdded 2%N].

(* ... and the third added by the server all the same. *)
Definition gated : TopicPool.t * World :=
  after [CallProcessFoundNode n1; CallProcessFoundNode n2; CallProcessFoundNode n3;
         CallConfirmAdded 1%N; CallConfirmAdded 2%N; CallConfirmAdded 3%N].

(* A started pool on whose found channel discovery has put the server's own
   node. *)
Definition own_node_found : TopicPool.t :=
  TopicPool.set_foundChan
    (go.ChanOpen [discv5.mkNode 1000%N [] 30303%N 30303%N; n1])
    (fst (after [])).

(* The third node was dropped again on the pool's request, then the first
   dropped of its own: the topic is below its maximum and the entry of the
   third node still has requested set. *)
Definition reopened : TopicPool.t * World :=
  after [CallProcessFoundNode n1; CallProcessFoundNode n2; CallProcessFoundNode n3;
         CallConfirmAdded 1%N; CallConfirmAdded 2%N; CallConfirmAdded 3%N;
         CallConfirmDropped 3%N "" []; CallConfirmDropped 1%N "" []].

(* A peer cache, behind the handle 0, that holds n1 for the topic. *)
Definition cache0 : Cache.t := Cache.mk {[("A", 1%N) := n1]} true.

Definition world_cached : World := mkWorld server0 {[0%nat := cache0]} clock0.

(* The peer pool over the one topic with limits (1, 1), started. *)
Definition started_pool (cache : option nat) (stopOnMax : bool) (w : World)
    : PeerPool.t * World :=
  match PeerPool.Start
          (PeerPool.NewPeerPool {["A" := (1, 1)]} DefaultFastSync DefaultSlowSync
             cache stopOnMax)
          ["A"] w with
  | go.Ok (_, p, w) => (p, w)
  | go.Fault _ => (PeerPool.NewPeerPool ∅ 0 0 None false, w)
  end.

(* The consumer of the first topic pool processes a node discovery found. *)
Definition discovered (node : discv5.Node) (s : PeerPool.t * World) : PeerPool.t * World :=
  match PeerPool.topics (fst s) with
  | [] => s
  | topicPool :: topics =>
    (PeerPool.set_topics (fst (TopicPool.processFoundNode topicPool node (snd s)) :: topics)
       (fst s),
     snd (TopicPool.processFoundNode topicPool node (snd s)))
  end.

(* The server confirms the addition of a node to the first topic pool. *)
Definition confirmed (nodeID : discover.NodeID) (s : PeerPool.t * World) : PeerPool.t * World :=
  match PeerPool.topics (fst s) with
  | [] => s
  | topicPool :: topics =>
    match TopicPool.ConfirmAdded topicPool nodeID (snd s) with
    | go.Ok (topicPool, w) => (PeerPool.set_topics (topicPool :: topics) (fst s), w)
    | go.Fault _ => s
    end
  end.

Definition added (nodeID : discover.NodeID) : p2p.PeerEvent :=
  p2p.mkPeerEvent p2p.PeerEventTypeAdd nodeID "".

Definition dispatch0 : PeerPool.dispatch := PeerPool.mkDispatch [] false.

(* The state of the dispatch loop after a turn that went through. *)
Definition turned (r : option (go.result (bool * PeerPool.dispatch * PeerPool.t * World)))
    : PeerPool.dispatch * PeerPool.t * World :=
  match r with
  | Some (go.Ok (_, d, p, w)) => (d, p, w)
  | _ => (dispatch0, PeerPool.NewPeerPool ∅ 0 0 None false, world0)
  end.

End Example.

(** ** Vocabulary of the further properties *)

(* Every ConfirmDropped of the calls [cs], made in turn on the pool, is for a
   node the table does not have, or whose entry is requested or connected. *)
Fixpoint drops_of_connected (cs : list call) (p : TopicPool.t) (w : World) : bool :=
  match cs with
  | [] => true
  | c :: cs =>
    match c with
    | CallConfirmDropped nodeID _ _ =>
      match TopicPool.peers p !! nodeID with
      | Some peer => peerInfo.requested peer || peerInfo.connected peer
      | None => true
      end
    | _ => true
    end
    && match step c p w with
       | go.Ok (p, w) => drops_of_connected cs p w
       | go.Fault _ => true
       end
  end.

(* The nodes StartSearch puts on the found channel of the pool. *)
Definition seeded (p : TopicPool.t) (w : World) : list discv5.Node :=
  match TopicPool.cache p with
  | Some c => cache_GetPeersRange c (TopicPool.topic p) 5 w
  | None => []
  end.

(* The channels of a pool whose search is running are as StartSearch made
   them and StopSearch has not closed them yet. *)
Definition searching (p : TopicPool.t) : Prop :=
  TopicPool.SearchRunning p = true ->
  TopicPool.quit p = go.SigOpen /\ exists buf, TopicPool.period p = go.ChanOpen buf.

(* The topics of the configuration that [range p.config] visits in [order],
   with their limits. *)
Definition visited (p : PeerPool.t) (order : list discv5.Topic)
    : list (discv5.Topic * params.Limits) :=
  omap (fun topic => pair topic <$> PeerPool.config p !! topic) order.

(* The topic pool Start makes for a topic, once its search is started. *)
Definition started_topic (p : PeerPool.t) (tl : discv5.Topic * params.Limits) : TopicPool.t :=
  TopicPool.mk (fst tl) (snd tl) (PeerPool.slowSync p) (PeerPool.fastSync p)
    go.SigOpen 1 0 ∅ (go.ChanOpen []) None (go.ChanOpen []) (go.ChanOpen []).

(* A request to remove a peer. *)
Definition is_RemovePeer (r : p2p.request) : Prop := exists n, r = p2p.RemovePeer n.

(** ** Package transactions: the arguments of a transaction *)

Module transactions.

(* hexutil.Bytes is []byte: nil (None) or a slice. *)
Definition Bytes : Type := option (list Byte.byte).

(* len(b), which is 0 for nil *)
Definition content (b : Bytes) : list Byte.byte :=
  match b with
  | Some l => l
  | None => []
  end.

Fixpoint equal (a b : list Byte.byte) : bool :=
  match a, b with
  | [], [] => true
  | x :: a, y :: b => Byte.eqb x y && equal a b
  | _, _ => false
  end.

(* bytes.Equal: the lengths and the bytes agree; nil equals an empty slice. *)
Definition bytes_Equal (a b : Bytes) : bool := equal (content a) (content b).

(* SendTxArgs represents the arguments to submit a new transaction into the
   transaction pool.  Addresses are 160-bit numbers, the pointer fields are
   options. *)
Record SendTxArgs : Type := mkSendTxArgs {
  From : N;
  To : option N;
  Gas : option N;
  GasPrice : option Z;
  Value : option Z;
  Nonce : option N;
  Input : Bytes;
  Data : Bytes
}.

Definition isNilOrEmpty (bytes : Bytes) : bool :=
  match bytes with
  | None => true
  | Some l => (length l =? 0)%nat
  end.

(* Valid checks whether this structure is filled in correctly. *)
Definition Valid (args : SendTxArgs) : bool :=
  (* if at least one of the fields is empty, it is a valid struct *)
  if isNilOrEmpty (Input args) || isNilOrEmpty (Data args) then true
  (* we only allow both fields to present if they have the same data *)
  else bytes_Equal (Input args) (Data args).

(* GetInput returns either Input or Data field's value dependent on what is
   filled. *)
Definition GetInput (args : SendTxArgs) : Bytes :=
  if negb (isNilOrEmpty (Input args)) then Input args else Data args.

End transactions.

(** * Properties *)

(** ** The over-capacity gate of ConfirmAdded *)

(** C3: when ConfirmAdded finds the PeerInfo of the node and the connected
    counter equals limits[1], it sets requested on that PeerInfo, asks the
    server to remove the peer and returns: the counter and every other entry
    of the peers table are as before, so the counter stays at the maximum. *)
Theorem ConfirmAdded_at_max_requests_drop
    (p : TopicPool.t) (nodeID : discover.NodeID) (peer : peerInfo.t) (w : World) :
  TopicPool.peers p !! nodeID = Some peer ->
  TopicPool.connected p = snd (TopicPool.limits p) ->
  exists p' w',
    TopicPool.ConfirmAdded p nodeID w = go.Ok (p', w') /\
    TopicPool.peers p' !! nodeID = Some (peerInfo.set_requested true peer) /\
    (forall k, k <> nodeID -> TopicPool.peers p' !! k = TopicPool.peers p !! k) /\
    TopicPool.connected p' = TopicPool.connected p /\
    TopicPool.connected p' = snd (TopicPool.limits p') /\
    TopicPool.period p' = TopicPool.period p /\
    p2p.requests (server w') = p2p.requests (server w) ++ [p2p.RemovePeer (dialled peer)].
Proof.
  intros Hpeer Hmax.
  unfold TopicPool.ConfirmAdded. rewrite Hpeer.
  apply Z.eqb_eq in Hmax. rewrite Hmax.
  eexists _, _. split; [reflexivity |].
  apply Z.eqb_eq in Hmax. cbn.
  repeat split.
  - apply lookup_insert_eq.
  - intros k Hk. by apply lookup_insert_ne.
  - exact Hmax.
  - by destruct (TopicPool.cache p).
Qed.

Lemma ConfirmAdded_at_max_requests_drop_witness :
  TopicPool.connected (fst Example.full) = 2 /\
  exists p' w',
    TopicPool.ConfirmAdded (fst Example.full) 3%N (snd Example.full) = go.Ok (p', w') /\
    TopicPool.connected p' = 2 /\
    (peerInfo.requested <$> TopicPool.peers p' !! 3%N) = Some true.
Proof.
  split; [reflexivity |].
  destruct (ConfirmAdded_at_max_requests_drop (fst Example.full) 3%N
              (peerInfo.mk 1002 false false Example.n3) (snd Example.full))
    as (p' & w' & H & Hp & _ & Hc & _).
  - vm_compute. reflexivity.
  - reflexivity.
  - exists p', w'. split; [exact H |]. rewrite Hc. split; [reflexivity |].
    exact (f_equal (fmap peerInfo.requested) Hp).
Defined.

(** ** Drops the pool asked for *)

(** C5: when ConfirmDropped finds the PeerInfo of the node with requested
    set, it returns (nil, true) and leaves the pool (counter and peers table
    among the rest) and the world (the caches and the server among the rest)
    as they were. *)
Theorem ConfirmDropped_requested_is_ignored
    (p : TopicPool.t) (nodeID : discover.NodeID) (reason : string)
    (order : list discv5.NodeID) (peer : peerInfo.t) (w : World) :
  TopicPool.peers p !! nodeID = Some peer ->
  peerInfo.requested peer = true ->
  exists p' w',
    TopicPool.ConfirmDropped p nodeID reason order w = go.Ok (None, true, p', w') /\
    TopicPool.connected p' = TopicPool.connected p /\
    TopicPool.peers p' = TopicPool.peers p /\
    caches w' = caches w /\
    p' = p /\ w' = w.
Proof.
  intros Hpeer Hreq. exists p, w.
  unfold TopicPool.ConfirmDropped. rewrite Hpeer, Hreq. repeat split.
Qed.

Lemma ConfirmDropped_requested_is_ignored_witness :
  (peerInfo.requested <$> TopicPool.peers (fst Example.gated) !! 3%N) = Some true /\
  TopicPool.ConfirmDropped (fst Example.gated) 3%N "" [1%N; 2%N] (snd Example.gated)
  = go.Ok (None, true, fst Example.gated, snd Example.gated).
Proof.
  split; [reflexivity |].
  destruct (ConfirmDropped_requested_is_ignored (fst Example.gated) 3%N "" [1%N; 2%N]
              (peerInfo.mk 1002 false true Example.n3) (snd Example.gated))
    as (p' & w' & H & _ & _ & _ & -> & ->).
  - vm_compute. reflexivity.
  - reflexivity.
  - exact H.
Defined.

(** ** The replacement step of ConfirmDropped *)

Lemma wrap64_add_le (d e : Z) : go.int64 d -> 0 <= e -> go.wrap64 (d + e) <= d + e.
Proof.
  unfold go.int64, go.wrap64, go.wrap. intros Hd He.
  assert (0 <= d + e + 2 ^ (64 - 1)) as Hnn by (change (2 ^ (64 - 1)) with (2 ^ 63); lia).
  pose proof (Z.mod_le (d + e + 2 ^ (64 - 1)) (2 ^ 64) Hnn ltac:(lia)). lia.
Qed.

(* 60 minutes, in the nanoseconds of time.Duration. *)
Lemma expirationPeriod_minutes : expirationPeriod = 3600000000000.
Proof. reflexivity. Qed.

(* What the loop over the peers table leaves: a peer it returns was looked
   up in the table, is not connected, passed the test at a reading of the
   clock taken by the loop, and is the one addition asked of the server. *)
Lemma replacement_spec (peers : gmap discv5.NodeID peerInfo.t) (order : list discv5.NodeID) :
  forall (w : World),
    let r := TopicPool.replacement peers order w in
    caches (snd r) = caches w /\
    mclock.readings (clock (snd r)) = mclock.readings (clock w) /\
    match fst r with
    | Some info =>
      (exists k, peers !! k = Some info) /\
      peerInfo.connected info = false /\
      (exists j, (mclock.reads (clock w) <= j < mclock.reads (clock (snd r)))%nat /\
                 mclock.readings (clock w) j
                   < go.wrap64 (peerInfo.discoveredTime info + expirationPeriod)) /\
      p2p.requests (server (snd r)) = p2p.requests (server w) ++ [p2p.AddPeer (dialled info)]
    | None =>
      (mclock.reads (clock w) <= mclock.reads (clock (snd r)))%nat /\
      p2p.requests (server (snd r)) = p2p.requests (server w)
    end.
Proof.
  induction order as [| k order IH]; intros w; cbn -[expirationPeriod].
  - repeat split; lia.
  - destruct (peers !! k) as [peer |] eqn:Hk; [| apply IH].
    destruct (peerInfo.connected peer) eqn:Hconn; cbn -[expirationPeriod]; [apply IH |].
    destruct (_ <? _) eqn:Hfresh; cbn -[expirationPeriod].
    + apply Z.ltb_lt in Hfresh. repeat split; eauto.
    + specialize (IH (mkWorld (server w) (caches w) (snd (mclock.Now (clock w))))).
      cbn -[expirationPeriod] in IH.
      destruct IH as (Hc & Hr & IH). repeat split; [exact Hc | exact Hr |].
      destruct (fst (TopicPool.replacement peers order _)) as [info |].
      * destruct IH as (Hin & Hnc & (j & Hj & Hlt) & Hreq).
        repeat split; [exact Hin | exact Hnc | | exact Hreq].
        exists j. split; [lia | exact Hlt].
      * destruct IH as (Hle & Hreq). split; [lia | exact Hreq].
Qed.

(** C6: when ConfirmDropped comes to its replacement step (the node is in the
    table and was not requested), the call returns with ignored false.  A
    peer it returns is an entry of the remaining table that is not connected
    and whose discoveredTime is newer than now - 60 minutes, for a reading
    now of the clock taken by the loop; the server was asked to add that
    peer and nothing else.  When it returns nil no addition was asked; and
    it returns nil when the remaining table has no such entry. *)
Theorem ConfirmDropped_replacement
    (p : TopicPool.t) (nodeID : discover.NodeID) (reason : string)
    (order : list discv5.NodeID) (peer : peerInfo.t) (w : World) :
  TopicPool.peers p !! nodeID = Some peer ->
  peerInfo.requested peer = false ->
  period_open p ->
  (forall k info, TopicPool.peers p !! k = Some info -> go.int64 (peerInfo.discoveredTime info)) ->
  exists replaced p' w',
    TopicPool.ConfirmDropped p nodeID reason order w = go.Ok (replaced, false, p', w') /\
    TopicPool.peers p' = delete nodeID (TopicPool.peers p) /\
    match replaced with
    | Some info =>
      (exists k, TopicPool.peers p' !! k = Some info) /\
      peerInfo.connected info = false /\
      (exists j, (mclock.reads (clock w) <= j < mclock.reads (clock w'))%nat /\
                 mclock.readings (clock w) j - 60 * time.Minute
                   < peerInfo.discoveredTime info) /\
      p2p.requests (server w') =
        p2p.requests (server w) ++ [p2p.RemovePeer (dialled peer); p2p.AddPeer (dialled info)]
    | None =>
      p2p.requests (server w') = p2p.requests (server w) ++ [p2p.RemovePeer (dialled peer)]
    end /\
    ((forall k info j,
        TopicPool.peers p' !! k = Some info ->
        peerInfo.connected info = false ->
        (mclock.reads (clock w) <= j)%nat ->
        ~ mclock.readings (clock w) j - 60 * time.Minute < peerInfo.discoveredTime info) ->
     replaced = None).
Proof.
  intros Hpeer Hreq Hopen Hint.
  unfold TopicPool.ConfirmDropped. rewrite Hpeer, Hreq.
  set (sent := if TopicPool.SearchRunning p && _ then _ else _).
  assert (exists p1, sent = go.Ok p1 /\ TopicPool.peers p1 = TopicPool.peers p /\
                     TopicPool.cache p1 = TopicPool.cache p /\
                     TopicPool.topic p1 = TopicPool.topic p) as (p1 & -> & Hp1 & Hc1 & Ht1).
  { subst sent. destruct (TopicPool.SearchRunning p) eqn:Hrun; cbn; [| by exists p].
    destruct (_ =? _); [| by exists p].
    destruct (Hopen Hrun) as [buf ->]. cbn. by eexists. }
  cbn -[TopicPool.replacement expirationPeriod]. rewrite Hp1.
  set (w1 := match TopicPool.cache p1 with
             | Some c => cache_RemovePeer c nodeID (TopicPool.topic p1) (TopicPool.removePeer peer w)
             | None => TopicPool.removePeer peer w
             end).
  assert (p2p.requests (server w1) = p2p.requests (server w) ++ [p2p.RemovePeer (dialled peer)]
          /\ clock w1 = clock w) as [Hreq1 Hclk1].
  { subst w1. by destruct (TopicPool.cache p1). }
  pose proof (replacement_spec (delete nodeID (TopicPool.peers p)) order w1) as Hspec.
  cbn zeta in Hspec.
  destruct (TopicPool.replacement (delete nodeID (TopicPool.peers p)) order w1)
    as [replaced w'] eqn:Hrepl.
  cbn [fst snd] in Hspec. destruct Hspec as (_ & _ & Hspec).
  exists replaced. eexists _, w'. split; [reflexivity |]. split; [reflexivity |].
  cbn [TopicPool.peers TopicPool.set_peers].
  assert (forall info,
            replaced = Some info ->
            (exists k, delete nodeID (TopicPool.peers p) !! k = Some info) /\
            peerInfo.connected info = false /\
            (exists j, (mclock.reads (clock w) <= j < mclock.reads (clock w'))%nat /\
               mclock.readings (clock w) j - 60 * time.Minute < peerInfo.discoveredTime info))
    as Hsound.
  { intros info ->. destruct Hspec as ((k & Hk) & Hnc & (j & Hj & Hlt) & _).
    split; [by exists k |]. split; [exact Hnc |].
    exists j. rewrite Hclk1 in Hj, Hlt. split; [exact Hj |].
    assert (go.int64 (peerInfo.discoveredTime info)) as Hi.
    { apply lookup_delete_Some in Hk as [_ Hk]. by eapply Hint. }
    pose proof (wrap64_add_le _ expirationPeriod Hi ltac:(by vm_compute)) as Hle.
    change (60 * time.Minute) with expirationPeriod. lia. }
  split.
  - destruct replaced as [info |].
    + destruct (Hsound info eq_refl) as (Hk & Hnc & Hj).
      destruct Hspec as (_ & _ & _ & Hadd).
      repeat split; [exact Hk | exact Hnc | exact Hj |].
      rewrite Hadd, Hreq1, <- app_assoc. reflexivity.
    + destruct Hspec as [_ ->]. exact Hreq1.
  - intros Hnone. destruct replaced as [info |]; [| reflexivity].
    destruct (Hsound info eq_refl) as ((k & Hk) & Hnc & (j & Hj & Hlt)).
    exfalso. eapply (Hnone k info j); eauto. lia.
Qed.

Lemma ConfirmDropped_replacement_witness :
  TopicPool.peers (fst Example.full) !! 1%N = Some (peerInfo.mk 1000 true false Example.n1) /\
  period_open (fst Example.full) /\
  exists replaced p' w',
    TopicPool.ConfirmDropped (fst Example.full) 1%N "" [2%N; 3%N] (snd Example.full)
    = go.Ok (replaced, false, p', w') /\
    TopicPool.peers p' = delete 1%N (TopicPool.peers (fst Example.full)).
Proof.
  assert (period_open (fst Example.full)) as Hopen.
  { intros _. eexists. vm_compute. reflexivity. }
  split; [vm_compute; reflexivity |]. split; [exact Hopen |].
  destruct (ConfirmDropped_replacement (fst Example.full) 1%N "" [2%N; 3%N]
              (peerInfo.mk 1000 true false Example.n1) (snd Example.full))
    as (replaced & p' & w' & H & Hp & _).
  - vm_compute. reflexivity.
  - reflexivity.
  - exact Hopen.
  - change (map_Forall (fun _ info => go.int64 (peerInfo.discoveredTime info))
              (TopicPool.peers (fst Example.full))).
    unfold go.int64. apply (bool_decide_unpack _). vm_compute. exact I.
  - exists replaced, p', w'. split; [exact H | exact Hp].
Defined.

(** ** The consumer of found nodes *)

(** C8: a node received from the found channel whose id is the server's own
    never reaches processFoundNode: the turn of the consumer only takes it
    off the channel; the peers table is as before and nothing is asked of the
    server, no AddPeer in particular. *)
Theorem handleFoundPeers_drops_own_node
    (p : TopicPool.t) (w : World) (node : discv5.Node) (rest : go.chan discv5.Node) :
  go.recv (TopicPool.foundChan p) = Some (Some node, rest) ->
  discv5.ID node = discover.ID (p2p.Self (server w)) ->
  exists p' w',
    TopicPool.handleFoundPeers_turn TopicPool.SelFound p w = Some (go.Ok (true, p', w')) /\
    p' = TopicPool.set_foundChan rest p /\
    TopicPool.peers p' = TopicPool.peers p /\
    TopicPool.connected p' = TopicPool.connected p /\
    p2p.requests (server w') = p2p.requests (server w) /\
    w' = w.
Proof.
  intros Hrecv Hself. exists (TopicPool.set_foundChan rest p), w.
  unfold TopicPool.handleFoundPeers_turn. rewrite Hrecv, Hself, N.eqb_refl. cbn.
  repeat split.
Qed.

Lemma handleFoundPeers_drops_own_node_witness :
  TopicPool.handleFoundPeers_turn TopicPool.SelFound Example.own_node_found Example.world0
  = Some (go.Ok (true, TopicPool.set_foundChan (go.ChanOpen [Example.n1]) Example.own_node_found,
                 Example.world0)).
Proof.
  destruct (handleFoundPeers_drops_own_node Example.own_node_found Example.world0
              (discv5.mkNode 1000%N [] 30303%N 30303%N) (go.ChanOpen [Example.n1]))
    as (p' & w' & H & -> & _ & _ & _ & ->).
  - reflexivity.
  - reflexivity.
  - exact H.
Defined.

(* For contrast, any other node goes to processFoundNode. *)
Lemma handleFoundPeers_processes_other_node
    (p : TopicPool.t) (w : World) (node : discv5.Node) (rest : go.chan discv5.Node) :
  go.recv (TopicPool.foundChan p) = Some (Some node, rest) ->
  discv5.ID node <> discover.ID (p2p.Self (server w)) ->
  TopicPool.handleFoundPeers_turn TopicPool.SelFound p w
  = Some (go.Ok (true,
                 fst (TopicPool.processFoundNode (TopicPool.set_foundChan rest p) node w),
                 snd (TopicPool.processFoundNode (TopicPool.set_foundChan rest p) node w))).
Proof.
  intros Hrecv Hother. unfold TopicPool.handleFoundPeers_turn. rewrite Hrecv.
  apply N.eqb_neq in Hother. cbv zeta. rewrite Hother. cbn [negb].
  by destruct (TopicPool.processFoundNode (TopicPool.set_foundChan rest p) node w).
Qed.

(** ** Stopping twice *)

Lemma StopSearch_again (p p1 : TopicPool.t) :
  TopicPool.StopSearch p = go.Ok p1 -> TopicPool.StopSearch p1 = go.Ok p1.
Proof.
  unfold TopicPool.StopSearch.
  destruct (TopicPool.SearchRunning p) eqn:Hrun; cbn.
  - destruct (go.is_nil (TopicPool.quit p)) eqn:Hnil.
    { intros [= <-]. by rewrite Hrun, Hnil. }
    destruct (go.ready (TopicPool.quit p)) eqn:Hready.
    { intros [= <-]. by rewrite Hrun, Hnil, Hready. }
    destruct (TopicPool.quit p); try discriminate. cbn.
    destruct (TopicPool.period p); try discriminate. cbn.
    intros [= <-]. reflexivity.
  - intros [= <-]. by rewrite Hrun.
Qed.

(** C9: Stop after Stop and StopSearch after StopSearch are no-ops: the
    second call returns the pool and the world of the first unchanged, so
    it closes no channel, unsubscribes nothing and asks nothing of the
    server. *)
Theorem Stop_and_StopSearch_twice :
  (forall (p p1 : PeerPool.t) (w w1 : World),
      PeerPool.Stop p w = go.Ok (p1, w1) -> PeerPool.Stop p1 w1 = go.Ok (p1, w1)) /\
  (forall (p p1 : TopicPool.t),
      TopicPool.StopSearch p = go.Ok p1 -> TopicPool.StopSearch p1 = go.Ok p1).
Proof.
  split; [| exact StopSearch_again].
  intros p p1 w w1. unfold PeerPool.Stop.
  destruct (go.is_nil (PeerPool.quit p)) eqn:Hnil.
  { intros [= <- <-]. by rewrite Hnil. }
  destruct (go.ready (PeerPool.quit p)) eqn:Hready.
  { intros [= <- <-]. by rewrite Hnil, Hready. }
  destruct (PeerPool.quit p); try discriminate. cbn.
  destruct (PeerPool.serverSubscription p); [| discriminate].
  destruct (PeerPool.stopSearches (PeerPool.topics p)); [| discriminate]. cbn.
  intros [= <- <-]. reflexivity.
Qed.

Lemma Stop_and_StopSearch_twice_witness :
  (exists p1 w1,
      PeerPool.Stop (fst (Example.started_pool None false Example.world0))
                    (snd (Example.started_pool None false Example.world0)) = go.Ok (p1, w1) /\
      PeerPool.quit p1 = go.SigClosed /\
      PeerPool.Stop p1 w1 = go.Ok (p1, w1)) /\
  (exists p1,
      TopicPool.StopSearch (fst (Example.after [])) = go.Ok p1 /\
      TopicPool.quit p1 = go.SigClosed /\
      TopicPool.StopSearch p1 = go.Ok p1).
Proof.
  split.
  - eexists _, _. split; [vm_compute; reflexivity |]. split; [reflexivity |].
    apply (proj1 Stop_and_StopSearch_twice
             (fst (Example.started_pool None false Example.world0)) _
             (snd (Example.started_pool None false Example.world0)) _).
    vm_compute. reflexivity.
  - eexists. split; [vm_compute; reflexivity |]. split; [reflexivity |].
    apply (proj2 Stop_and_StopSearch_twice (fst (Example.after [])) _).
    vm_compute. reflexivity.
Defined.

(** ** The requested flag *)

Lemma send_open {A : Type} (c : go.chan A) (v : A) :
  (exists buf, c = go.ChanOpen buf) ->
  exists buf, go.send c v = go.Ok (go.ChanOpen buf).
Proof. intros [buf ->]. by eexists. Qed.

Lemma ConfirmAdded_keeps (p : TopicPool.t) (nodeID : discover.NodeID) (w : World) :
  period_open p ->
  exists p' w',
    TopicPool.ConfirmAdded p nodeID w = go.Ok (p', w') /\
    period_open p' /\
    forall k, requested_in k p -> requested_in k p'.
Proof.
  intros Hopen. unfold TopicPool.ConfirmAdded.
  destruct (TopicPool.peers p !! nodeID) as [peer |] eqn:Hpeer; [| by eexists _, _].
  destruct (_ =? _).
  { eexists _, _. split; [reflexivity |]. split; [exact Hopen |].
    intros k (x & Hk & Hx). unfold requested_in. cbn.
    destruct (decide (nodeID = k)) as [-> | Hne].
    - rewrite lookup_insert_eq. by eexists.
    - rewrite lookup_insert_ne by done. by exists x. }
  set (p1 := if negb (peerInfo.connected peer) then _ else p).
  assert (TopicPool.running p1 = TopicPool.running p /\ TopicPool.period p1 = TopicPool.period p
          /\ forall k, requested_in k p -> requested_in k p1) as (Hrun & Hper & Hkeep).
  { subst p1. destruct (peerInfo.connected peer); cbn; [done |].
    repeat split. intros k (x & Hk & Hx). unfold requested_in. cbn.
    destruct (decide (nodeID = k)) as [-> | Hne].
    - rewrite lookup_insert_eq. eexists. split; [reflexivity |]. cbn.
      pose proof (eq_trans (eq_sym Hpeer) Hk) as [= ->]. exact Hx.
    - rewrite lookup_insert_ne by done. by exists x. }
  assert (period_open p1) as Hopen1.
  { unfold period_open, TopicPool.SearchRunning in *. by rewrite Hrun, Hper. }
  destruct (TopicPool.SearchRunning p1) eqn:Hsr; cbn; [| by eexists _, _].
  destruct (_ =? _); [| by eexists _, _].
  destruct (send_open (TopicPool.period p1) (TopicPool.slowSync p1) (Hopen1 Hsr)) as [buf ->].
  cbn. eexists _, _. split; [reflexivity |]. split; [intros _; by eexists | exact Hkeep].
Qed.

Lemma ConfirmDropped_keeps (p : TopicPool.t) (nodeID : discover.NodeID) (reason : string)
    (order : list discv5.NodeID) (w : World) :
  period_open p ->
  exists replaced ignored p' w',
    TopicPool.ConfirmDropped p nodeID reason order w = go.Ok (replaced, ignored, p', w') /\
    period_open p' /\
    forall k, requested_in k p -> requested_in k p'.
Proof.
  intros Hopen. unfold TopicPool.ConfirmDropped.
  destruct (TopicPool.peers p !! nodeID) as [peer |] eqn:Hpeer; [| by eexists _, _, _, _].
  destruct (peerInfo.requested peer) eqn:Hreq; [by eexists _, _, _, _ |].
  set (sent := if TopicPool.SearchRunning p && _ then _ else _).
  assert (exists p1, sent = go.Ok p1 /\ TopicPool.peers p1 = TopicPool.peers p /\
                     period_open p1) as (p1 & -> & Hp1 & Hopen1).
  { subst sent. destruct (TopicPool.SearchRunning p) eqn:Hrun; cbn; [| by exists p].
    destruct (_ =? _); [| by exists p].
    destruct (Hopen Hrun) as [buf ->]. cbn. eexists. split; [reflexivity |].
    split; [reflexivity |]. intros _. by eexists. }
  cbn -[TopicPool.replacement]. destruct (TopicPool.replacement _ _ _) as [replaced w'].
  eexists _, _, _, _. split; [reflexivity |]. split; [exact Hopen1 |].
  intros k (x & Hk & Hx). exists x. cbn. rewrite Hp1. split; [| exact Hx].
  rewrite lookup_delete_ne; [exact Hk |]. intros ->.
  pose proof (eq_trans (eq_sym Hpeer) Hk) as [= ->]. congruence.
Qed.

Lemma processFoundNode_keeps (p : TopicPool.t) (node : discv5.Node) (w : World) :
  period_open p ->
  period_open (fst (TopicPool.processFoundNode p node w)) /\
  forall k, requested_in k p -> requested_in k (fst (TopicPool.processFoundNode p node w)).
Proof.
  intros Hopen. unfold TopicPool.processFoundNode. cbn.
  set (info := match TopicPool.peers p !! discv5.ID node with
               | Some info => _
               | None => _
               end).
  assert (forall k, requested_in k p ->
            requested_in k (TopicPool.set_peers (<[discv5.ID node := info]> (TopicPool.peers p)) p))
    as Hkeep.
  { intros k (x & Hk & Hx). unfold requested_in. cbn.
    destruct (decide (discv5.ID node = k)) as [<- | Hne].
    - rewrite lookup_insert_eq. subst info. rewrite Hk. by eexists.
    - rewrite lookup_insert_ne by done. by exists x. }
  by destruct (_ && _).
Qed.

Lemma run_keeps (cs : list call) :
  forall (p : TopicPool.t) (w : World),
    period_open p ->
    exists p' w',
      run cs p w = go.Ok (p', w') /\
      period_open p' /\
      forall k, requested_in k p -> requested_in k p'.
Proof.
  induction cs as [| c cs IH]; intros p w Hopen; cbn.
  - by eexists _, _.
  - assert (exists p1 w1, step c p w = go.Ok (p1, w1) /\ period_open p1 /\
                          forall k, requested_in k p -> requested_in k p1)
      as (p1 & w1 & -> & Hopen1 & Hkeep1).
    { destruct c as [nodeID | nodeID reason order | node]; cbn [step].
      - by apply ConfirmAdded_keeps.
      - destruct (ConfirmDropped_keeps p nodeID reason order w Hopen)
          as (? & ? & p1 & w1 & -> & ? & ?). by exists p1, w1.
      - destruct (processFoundNode_keeps p node w Hopen) as [? ?].
        destruct (TopicPool.processFoundNode p node w) as [p1 w1]. by exists p1, w1. }
    cbn. destruct (IH p1 w1 Hopen1) as (p' & w' & -> & Hopen' & Hkeep').
    exists p', w'. repeat split; auto.
Qed.

(** C10: once requested is set on the PeerInfo of a node nothing clears it.
    processFoundNode on re-discovery only moves discoveredTime; ConfirmAdded,
    with the topic below its maximum, marks that same PeerInfo connected and
    increments the counter while requested stays set; and after any calls
    of ConfirmAdded, ConfirmDropped and processFoundNode the entry is still
    there with requested set, so that every drop confirmed for the node is
    ignored and leaves the counter (and the rest of the pool) as it was. *)
Theorem requested_is_never_cleared
    (p : TopicPool.t) (nodeID : discover.NodeID) (peer : peerInfo.t) (w : World) :
  TopicPool.peers p !! nodeID = Some peer ->
  peerInfo.requested peer = true ->
  period_open p ->
  (forall node,
      discv5.ID node = nodeID ->
      TopicPool.peers (fst (TopicPool.processFoundNode p node w)) !! nodeID
      = Some (peerInfo.mk (fst (Now w)) (peerInfo.connected peer) true (peerInfo.node peer))) /\
  (peerInfo.connected peer = false ->
   TopicPool.connected p <> snd (TopicPool.limits p) ->
   exists p' w',
     TopicPool.ConfirmAdded p nodeID w = go.Ok (p', w') /\
     TopicPool.peers p' !! nodeID
     = Some (peerInfo.mk (peerInfo.discoveredTime peer) true true (peerInfo.node peer)) /\
     TopicPool.connected p' = go.wrap64 (TopicPool.connected p + 1)) /\
  (forall cs,
      exists p' w' peer',
        run cs p w = go.Ok (p', w') /\
        TopicPool.peers p' !! nodeID = Some peer' /\
        peerInfo.requested peer' = true /\
        forall reason order,
          TopicPool.ConfirmDropped p' nodeID reason order w' = go.Ok (None, true, p', w')).
Proof.
  intros Hpeer Hreq Hopen. split; [| split].
  - intros node <-. unfold TopicPool.processFoundNode.
    rewrite Hpeer. cbn. destruct (_ && _); cbn; rewrite lookup_insert_eq;
      unfold peerInfo.set_discoveredTime; by rewrite Hreq.
  - intros Hconn Hmax. unfold TopicPool.ConfirmAdded. rewrite Hpeer, Hconn.
    apply Z.eqb_neq in Hmax. rewrite Hmax. cbn [negb].
    set (p1 := TopicPool.set_connected _ _).
    assert (TopicPool.peers p1 !! nodeID
            = Some (peerInfo.mk (peerInfo.discoveredTime peer) true true (peerInfo.node peer)))
      as Hp1.
    { subst p1. cbn. rewrite lookup_insert_eq. unfold peerInfo.set_connected.
      by rewrite Hreq. }
    assert (forall q, TopicPool.peers q = TopicPool.peers p1 ->
                      TopicPool.connected q = TopicPool.connected p1 ->
                      TopicPool.peers q !! nodeID
                      = Some (peerInfo.mk (peerInfo.discoveredTime peer) true true
                                (peerInfo.node peer)) /\
                      TopicPool.connected q = go.wrap64 (TopicPool.connected p + 1)) as Hq.
    { intros q -> ->. split; [exact Hp1 | reflexivity]. }
    destruct (TopicPool.SearchRunning p1) eqn:Hrun; cbn [andb].
    + destruct (TopicPool.connected p1 =? _).
      * destruct (Hopen Hrun) as [buf Hbuf].
        change (TopicPool.period p1) with (TopicPool.period p). rewrite Hbuf.
        cbn [go.send mbind result_bind go.bind].
        eexists _, _. split; [reflexivity |]. by apply Hq.
      * eexists _, _. split; [reflexivity |]. by apply Hq.
    + eexists _, _. split; [reflexivity |]. by apply Hq.
  - intros cs.
    destruct (run_keeps cs p w Hopen) as (p' & w' & Hrun & _ & Hkeep).
    destruct (Hkeep nodeID) as (peer' & Hpeer' & Hreq'); [by exists peer |].
    exists p', w', peer'. repeat split; [exact Hrun | exact Hpeer' | exact Hreq' |].
    intros reason order. unfold TopicPool.ConfirmDropped. by rewrite Hpeer', Hreq'.
Qed.

Lemma requested_is_never_cleared_witness :
  TopicPool.peers (fst Example.reopened) !! 3%N = Some (peerInfo.mk 1002 false true Example.n3) /\
  TopicPool.connected (fst Example.reopened) = 1 /\
  period_open (fst Example.reopened) /\
  (exists p' w',
     TopicPool.ConfirmAdded (fst Example.reopened) 3%N (snd Example.reopened) = go.Ok (p', w') /\
     TopicPool.peers p' !! 3%N = Some (peerInfo.mk 1002 true true Example.n3) /\
     TopicPool.connected p' = 2) /\
  (exists p' w',
     run [CallConfirmAdded 3%N; CallProcessFoundNode Example.n3]
       (fst Example.reopened) (snd Example.reopened) = go.Ok (p', w') /\
     TopicPool.ConfirmDropped p' 3%N "" [] w' = go.Ok (None, true, p', w')).
Proof.
  assert (period_open (fst Example.reopened)) as Hopen.
  { intros _. eexists. vm_compute. reflexivity. }
  destruct (requested_is_never_cleared (fst Example.reopened) 3%N
              (peerInfo.mk 1002 false true Example.n3) (snd Example.reopened))
    as (_ & Hadd & Hall).
  - vm_compute. reflexivity.
  - reflexivity.
  - exact Hopen.
  - split; [vm_compute; reflexivity |]. split; [reflexivity |]. split; [exact Hopen |].
    split.
    + destruct Hadd as (p' & w' & H & Hp & Hc); [reflexivity | discriminate |].
      exists p', w'. split; [exact H |]. split; [exact Hp |]. rewrite Hc. reflexivity.
    + destruct (Hall [CallConfirmAdded 3%N; CallProcessFoundNode Example.n3])
        as (p' & w' & peer' & Hrun & _ & _ & Hdrop).
      exists p', w'. split; [exact Hrun | apply Hdrop].
Defined.

(** ** The connected counter and the connected entries *)

Lemma count_insert_same (m : gmap N peerInfo.t) (k : N) (x x' : peerInfo.t) :
  m !! k = Some x ->
  peerInfo.connected x' = peerInfo.connected x ->
  size (filter is_connected (<[k := x']> m)) = size (filter is_connected m).
Proof.
  intros Hk Hflag. rewrite map_filter_insert. case_decide as Hc.
  - apply map_size_insert_Some. exists x. apply map_lookup_filter_Some.
    split; [exact Hk |]. unfold is_connected in *. cbn in *. congruence.
  - f_equal. apply map_filter_delete_not. intros y Hy. unfold is_connected in *.
    cbn in *. congruence.
Qed.

Lemma count_insert_new (m : gmap N peerInfo.t) (k : N) (x' : peerInfo.t) :
  m !! k = None ->
  peerInfo.connected x' = false ->
  size (filter is_connected (<[k := x']> m)) = size (filter is_connected m).
Proof.
  intros Hk Hflag. rewrite map_filter_insert_not'; [reflexivity | |].
  - unfold is_connected. cbn. congruence.
  - intros y Hy. congruence.
Qed.

Lemma count_insert_connect (m : gmap N peerInfo.t) (k : N) (x x' : peerInfo.t) :
  m !! k = Some x ->
  peerInfo.connected x = false ->
  peerInfo.connected x' = true ->
  size (filter is_connected (<[k := x']> m)) = S (size (filter is_connected m)).
Proof.
  intros Hk Hx Hx'. rewrite map_filter_insert_True by exact Hx'.
  apply map_size_insert_None. apply map_lookup_filter_None. right.
  intros y Hy. unfold is_connected. cbn. congruence.
Qed.

Lemma count_delete_connected (m : gmap N peerInfo.t) (k : N) (x : peerInfo.t) :
  m !! k = Some x ->
  peerInfo.connected x = true ->
  S (size (filter is_connected (delete k m))) = size (filter is_connected m).
Proof.
  intros Hk Hx. rewrite map_filter_delete.
  assert (filter is_connected m !! k = Some x) as Hf.
  { apply map_lookup_filter_Some. by split. }
  rewrite map_size_delete, Hf.
  assert (size (filter is_connected m) <> 0%nat) as Hne.
  { intros Hz. apply map_size_empty_inv in Hz. rewrite Hz, lookup_empty in Hf. discriminate. }
  cbn. lia.
Qed.

Lemma count_delete_unconnected (m : gmap N peerInfo.t) (k : N) (x : peerInfo.t) :
  m !! k = Some x ->
  peerInfo.connected x = false ->
  size (filter is_connected (delete k m)) = size (filter is_connected m).
Proof.
  intros Hk Hx. f_equal. apply map_filter_delete_not. intros y Hy.
  unfold is_connected. cbn. congruence.
Qed.

Lemma wrap64_id (z : Z) : go.int64 z -> go.wrap64 z = z.
Proof.
  unfold go.int64, go.wrap64, go.wrap. intros Hz.
  change (2 ^ (64 - 1)) with (2 ^ 63). rewrite Z.mod_small; lia.
Qed.

(* ConfirmAdded keeps the counter equal to the number of connected entries. *)
Lemma ConfirmAdded_keeps_count (p p' : TopicPool.t) (nodeID : discover.NodeID) (w w' : World) :
  TopicPool.ConfirmAdded p nodeID w = go.Ok (p', w') ->
  TopicPool.connected p = connectedPeers p ->
  TopicPool.connected p < 2 ^ 63 - 1 ->
  TopicPool.connected p' = connectedPeers p'.
Proof.
  unfold TopicPool.ConfirmAdded, connectedPeers. intros Hrun Hinv Hsmall.
  destruct (TopicPool.peers p !! nodeID) as [peer |] eqn:Hpeer; [| by injection Hrun as <- <-].
  destruct (TopicPool.connected p =? _).
  { injection Hrun as <- <-. cbn.
    rewrite (count_insert_same _ _ peer) by done. exact Hinv. }
  set (p1 := if negb (peerInfo.connected peer) then _ else p) in Hrun.
  assert (TopicPool.connected p1 = Z.of_nat (size (filter is_connected (TopicPool.peers p1))))
    as Hinv1.
  { subst p1. destruct (peerInfo.connected peer) eqn:Hconn; cbn; [exact Hinv |].
    rewrite (count_insert_connect _ _ peer) by done.
    rewrite wrap64_id; [lia |]. unfold go.int64. lia. }
  destruct (TopicPool.SearchRunning p1 && _).
  - destruct (go.send _ _); [| discriminate]. by injection Hrun as <- <-.
  - by injection Hrun as <- <-.
Qed.

(* So does processFoundNode. *)
Lemma processFoundNode_keeps_count (p : TopicPool.t) (node : discv5.Node) (w : World) :
  TopicPool.connected p = connectedPeers p ->
  TopicPool.connected (fst (TopicPool.processFoundNode p node w))
  = connectedPeers (fst (TopicPool.processFoundNode p node w)).
Proof.
  unfold TopicPool.processFoundNode, connectedPeers. intros Hinv. cbn [Now fst snd].
  set (info := match TopicPool.peers p !! discv5.ID node with
               | Some info => _
               | None => _
               end).
  assert (size (filter is_connected (<[discv5.ID node := info]> (TopicPool.peers p)))
          = size (filter is_connected (TopicPool.peers p))) as Hsame.
  { subst info. destruct (TopicPool.peers p !! discv5.ID node) as [x |] eqn:Hx.
    - by apply (count_insert_same _ _ x).
    - by apply count_insert_new. }
  destruct (_ && _); cbn; rewrite Hsame; exact Hinv.
Qed.

(* And ConfirmDropped for a node whose entry is connected. *)
Lemma ConfirmDropped_of_connected_keeps_count
    (p p' : TopicPool.t) (nodeID : discover.NodeID) (reason : string)
    (order : list discv5.NodeID) (peer : peerInfo.t) (w w' : World)
    (replaced : option peerInfo.t) (ignored : bool) :
  TopicPool.peers p !! nodeID = Some peer ->
  peerInfo.connected peer = true ->
  TopicPool.ConfirmDropped p nodeID reason order w = go.Ok (replaced, ignored, p', w') ->
  TopicPool.connected p = connectedPeers p ->
  TopicPool.connected p < 2 ^ 63 ->
  TopicPool.connected p' = connectedPeers p'.
Proof.
  unfold TopicPool.ConfirmDropped, connectedPeers. intros Hpeer Hconn Hrun Hinv Hsmall.
  rewrite Hpeer in Hrun.
  destruct (peerInfo.requested peer); [by injection Hrun as <- <- <- <- |].
  set (sent := if TopicPool.SearchRunning p && _ then _ else _) in Hrun.
  assert (exists p1, sent = go.Ok p1 /\ TopicPool.peers p1 = TopicPool.peers p /\
                     TopicPool.connected p1 = TopicPool.connected p) as (p1 & Hsent & Hp1 & Hc1).
  { subst sent. destruct (TopicPool.SearchRunning p && _); [| by exists p].
    destruct (go.send _ _) as [c |]; [| discriminate]. by eexists. }
  rewrite Hsent in Hrun. cbn -[TopicPool.replacement] in Hrun.
  destruct (TopicPool.replacement _ _ _) as [r w1]. injection Hrun as <- <- <- <-.
  cbn. rewrite Hp1, Hc1.
  pose proof (count_delete_connected _ _ _ Hpeer Hconn) as Hdel.
  rewrite wrap64_id; [lia |]. unfold go.int64. lia.
Qed.

(* The decrement of ConfirmDropped does not look at the connected flag: for
   a node whose entry is neither requested nor connected the counter goes
   down and the number of connected entries stays. *)
Lemma ConfirmDropped_of_unconnected_decrements
    (p p' : TopicPool.t) (nodeID : discover.NodeID) (reason : string)
    (order : list discv5.NodeID) (peer : peerInfo.t) (w w' : World)
    (replaced : option peerInfo.t) (ignored : bool) :
  TopicPool.peers p !! nodeID = Some peer ->
  peerInfo.requested peer = false ->
  peerInfo.connected peer = false ->
  TopicPool.ConfirmDropped p nodeID reason order w = go.Ok (replaced, ignored, p', w') ->
  TopicPool.connected p' = go.wrap64 (TopicPool.connected p - 1) /\
  connectedPeers p' = connectedPeers p.
Proof.
  unfold TopicPool.ConfirmDropped, connectedPeers. intros Hpeer Hreq Hconn Hrun.
  rewrite Hpeer, Hreq in Hrun.
  set (sent := if TopicPool.SearchRunning p && _ then _ else _) in Hrun.
  assert (exists p1, sent = go.Ok p1 /\ TopicPool.peers p1 = TopicPool.peers p /\
                     TopicPool.connected p1 = TopicPool.connected p) as (p1 & Hsent & Hp1 & Hc1).
  { subst sent. destruct (TopicPool.SearchRunning p && _); [| by exists p].
    destruct (go.send _ _) as [c |]; [| discriminate]. by eexists. }
  rewrite Hsent in Hrun. cbn -[TopicPool.replacement] in Hrun.
  destruct (TopicPool.replacement _ _ _) as [r w1]. injection Hrun as <- <- <- <-.
  cbn. rewrite Hp1, Hc1. split; [reflexivity |].
  by rewrite (count_delete_unconnected _ _ _ Hpeer Hconn).
Qed.

(* ConfirmAdded never takes the counter above limits[1]. *)
Lemma ConfirmAdded_keeps_max (p p' : TopicPool.t) (nodeID : discover.NodeID) (w w' : World) :
  TopicPool.ConfirmAdded p nodeID w = go.Ok (p', w') ->
  go.int64 (TopicPool.connected p) ->
  go.int64 (snd (TopicPool.limits p)) ->
  TopicPool.connected p <= snd (TopicPool.limits p) ->
  TopicPool.connected p' <= snd (TopicPool.limits p').
Proof.
  unfold TopicPool.ConfirmAdded. intros Hrun Hc Hm Hle.
  destruct (TopicPool.peers p !! nodeID) as [peer |]; [| by injection Hrun as <- <-].
  destruct (TopicPool.connected p =? _) eqn:Hmax; [by injection Hrun as <- <- |].
  apply Z.eqb_neq in Hmax.
  set (p1 := if negb (peerInfo.connected peer) then _ else p) in Hrun.
  assert (TopicPool.connected p1 <= snd (TopicPool.limits p1)) as Hle1.
  { subst p1. destruct (peerInfo.connected peer); cbn; [exact Hle |].
    rewrite wrap64_id; [lia |]. unfold go.int64 in *. lia. }
  destruct (TopicPool.SearchRunning p1 && _).
  - destruct (go.send _ _); [| discriminate]. by injection Hrun as <- <-.
  - by injection Hrun as <- <-.
Qed.

(** ** Where the code leaves the specification *)

(** C1: the counter does not stay equal to the number of connected entries.
    ConfirmDropped decrements the counter for any tracked node that was not
    requested, without looking at its connected flag: a node that was found
    and then dropped before any add was confirmed takes the counter of a
    fresh pool to -1 while no entry of the table is connected. *)
Theorem connected_counter_leaves_count :
  exists p' w',
    run [CallProcessFoundNode Example.n1; CallConfirmDropped 1%N "" []]
      Example.fresh Example.world0 = go.Ok (p', w') /\
    TopicPool.peers p' = ∅ /\
    connectedPeers p' = 0 /\
    TopicPool.connected p' = -1 /\
    TopicPool.connected p' <> connectedPeers p'.
Proof.
  eexists _, _. split; [vm_compute; reflexivity |].
  repeat split; try reflexivity. discriminate.
Qed.

(** C2: the same unguarded decrement takes the counter below 0.  Three nodes
    are found, the first is confirmed as added, and drops are confirmed for
    the other two, which never were: the counter of the pool with limits
    (1, 2) is -1, outside 0 <= connected <= max, with one entry connected. *)
Theorem connected_counter_goes_negative :
  exists p' w',
    run [CallProcessFoundNode Example.n1; CallProcessFoundNode Example.n2;
         CallProcessFoundNode Example.n3; CallConfirmAdded 1%N;
         CallConfirmDropped 2%N "" []; CallConfirmDropped 3%N "" []]
      Example.fresh Example.world0 = go.Ok (p', w') /\
    connectedPeers p' = 1 /\
    TopicPool.connected p' = -1 /\
    ~ (0 <= TopicPool.connected p' <= snd (TopicPool.limits p')).
Proof.
  eexists _, _. split; [vm_compute; reflexivity |].
  repeat split; try reflexivity. cbn. lia.
Qed.

(* NewTopicPool sets no cache, and StartSearch, which finds none, seeds
   nothing. *)
Lemma StartSearch_of_new_pool (topic : discv5.Topic) (limits : params.Limits)
    (slowSync fastSync : time.Duration) (w : World) :
  exists err p' w',
    TopicPool.StartSearch (TopicPool.NewTopicPool topic limits slowSync fastSync) w
    = go.Ok (err, p', w') /\
    TopicPool.cache p' = None /\
    caches w' = caches w /\
    (err = None -> TopicPool.foundChan p' = go.ChanOpen []).
Proof.
  unfold TopicPool.StartSearch. cbn.
  destruct (p2p.DiscV5 (server w)); eexists _, _, _; (split; [reflexivity |]); by cbn.
Qed.

(* Whatever cache the peer pool was created with, the topic pools Start
   creates have none. *)
Lemma startTopics_without_cache (order : list discv5.Topic) :
  forall (p : PeerPool.t) (w : World),
    Forall (fun topicPool => TopicPool.cache topicPool = None) (PeerPool.topics p) ->
    exists err p' w',
      PeerPool.startTopics p order w = go.Ok (err, p', w') /\
      Forall (fun topicPool => TopicPool.cache topicPool = None) (PeerPool.topics p') /\
      caches w' = caches w.
Proof.
  induction order as [| topic order IH]; intros p w Hall; cbn [PeerPool.startTopics].
  - by eexists _, _, _.
  - destruct (PeerPool.config p !! topic) as [limits |]; [| by apply IH].
    destruct (StartSearch_of_new_pool topic limits (PeerPool.slowSync p) (PeerPool.fastSync p) w)
      as (err & p1 & w1 & -> & Hnone & Hw1 & _).
    cbn. destruct err as [e |]; [by eexists _, _, _ |].
    destruct (IH (PeerPool.set_topics (PeerPool.topics p ++ [p1]) p) w1)
      as (err & p' & w' & -> & Hall' & Hw').
    + cbn. apply Forall_app. split; [exact Hall | by constructor].
    + exists err, p', w'. repeat split; [exact Hall' | congruence].
Qed.

(** C4: Start does not hand the cache of the peer pool to the topic pools.
    With a cache that holds a node for the topic, the topic pool Start
    creates has a nil cache: StartSearch leaves the found channel empty, and
    the cache is the same after a found node was confirmed as added. *)
Theorem Start_leaves_the_cache_unused :
  PeerPool.cache (fst (Example.started_pool (Some 0%nat) false Example.world_cached))
  = Some 0%nat /\
  cache_GetPeersRange 0 "A" 5 (snd (Example.started_pool (Some 0%nat) false Example.world_cached))
  = [Example.n1] /\
  exists topicPool,
    PeerPool.topics (fst (Example.started_pool (Some 0%nat) false Example.world_cached))
    = [topicPool] /\
    TopicPool.cache topicPool = None /\
    TopicPool.foundChan topicPool = go.ChanOpen [] /\
    exists topicPool',
      PeerPool.topics
        (fst (Example.confirmed 2%N
                (Example.discovered Example.n2
                   (Example.started_pool (Some 0%nat) false Example.world_cached))))
      = [topicPool'] /\
      TopicPool.connected topicPool' = 1 /\
      caches
        (snd (Example.confirmed 2%N
                (Example.discovered Example.n2
                   (Example.started_pool (Some 0%nat) false Example.world_cached))))
      = {[0%nat := Example.cache0]}.
Proof.
  split; [reflexivity |]. split; [vm_compute; reflexivity |].
  eexists. split; [vm_compute; reflexivity |]. split; [reflexivity |]. split; [reflexivity |].
  eexists. split; [vm_compute; reflexivity |]. split; [reflexivity |].
  vm_compute. reflexivity.
Qed.

(* Closing through the handle the pool has itself set to nil. *)
Lemma closeDiscV5_nil (w : World) :
  p2p.DiscV5 (server w) = None -> PeerPool.closeDiscV5 w = go.Fault go.NilDereference.
Proof. unfold PeerPool.closeDiscV5. by intros ->. Qed.

(** C7: with stopOnMax and the one topic at its maximum the add branch
    closes DiscoveryV5 and sets the handle to nil; on the next add event,
    with the topic still at its maximum, it calls Close again, through the
    nil handle. *)
Theorem DiscV5_closed_again_on_next_add :
  exists d1 p1 w1,
    PeerPool.handleServerPeers_turn None (fun _ => []) (PeerPool.SelEvent (Example.added 1%N))
      Example.dispatch0
      (fst (Example.discovered Example.n1 (Example.started_pool None true Example.world0)))
      (snd (Example.discovered Example.n1 (Example.started_pool None true Example.world0)))
    = Some (go.Ok (true, d1, p1, w1)) /\
    PeerPool.stopOnMax p1 = true /\
    forallb TopicPool.MaxReached (PeerPool.topics p1) = true /\
    p2p.DiscV5 (server w1) = None /\
    p2p.requests (server w1)
    = [p2p.SearchTopic "A"; p2p.SubscribeEvents;
       p2p.AddPeer (discover.NewNode 1%N [] 30303%N 30303%N); p2p.Close 0%nat] /\
    PeerPool.handleServerPeers_turn None (fun _ => []) (PeerPool.SelEvent (Example.added 2%N))
      d1 p1 w1
    = Some (go.Fault go.NilDereference).
Proof.
  eexists _, _, _. split; [vm_compute; reflexivity |].
  repeat split; vm_compute; reflexivity.
Qed.

(** * Further properties of the topic pool *)

(** X1: an event for a node the pool has no PeerInfo for changes nothing:
    ConfirmAdded returns with the pool and the world as they were (no cache
    write, no request to the server), and ConfirmDropped returns (nil, true)
    likewise. *)
Theorem untracked_node_changes_nothing
    (p : TopicPool.t) (nodeID : discover.NodeID) (reason : string)
    (order : list discv5.NodeID) (w : World) :
  TopicPool.peers p !! nodeID = None ->
  TopicPool.ConfirmAdded p nodeID w = go.Ok (p, w) /\
  TopicPool.ConfirmDropped p nodeID reason order w = go.Ok (None, true, p, w).
Proof.
  intros Hnone. unfold TopicPool.ConfirmAdded, TopicPool.ConfirmDropped.
  by rewrite Hnone.
Qed.

Lemma untracked_node_changes_nothing_witness :
  TopicPool.peers (fst Example.full) !! 9%N = None /\
  TopicPool.ConfirmAdded (fst Example.full) 9%N (snd Example.full)
  = go.Ok (fst Example.full, snd Example.full) /\
  TopicPool.ConfirmDropped (fst Example.full) 9%N "" [1%N; 2%N; 3%N] (snd Example.full)
  = go.Ok (None, true, fst Example.full, snd Example.full).
Proof.
  assert (TopicPool.peers (fst Example.full) !! 9%N = None) as Hnone
    by (vm_compute; reflexivity).
  split; [exact Hnone |].
  exact (untracked_node_changes_nothing (fst Example.full) 9%N "" [1%N; 2%N; 3%N]
           (snd Example.full) Hnone).
Defined.

(** X2: ConfirmAdded does not count the same peer twice: for a peer whose
    PeerInfo is already connected, with the counter not at limits[1], the
    call leaves the peers table and the counter as they were and asks
    nothing of the server. *)
Theorem ConfirmAdded_counts_a_peer_once
    (p : TopicPool.t) (nodeID : discover.NodeID) (peer : peerInfo.t) (w : World) :
  TopicPool.peers p !! nodeID = Some peer ->
  peerInfo.connected peer = true ->
  TopicPool.connected p <> snd (TopicPool.limits p) ->
  period_open p ->
  exists p' w',
    TopicPool.ConfirmAdded p nodeID w = go.Ok (p', w') /\
    TopicPool.peers p' = TopicPool.peers p /\
    TopicPool.connected p' = TopicPool.connected p /\
    p2p.requests (server w') = p2p.requests (server w).
Proof.
  intros Hpeer Hconn Hmax Hopen. unfold TopicPool.ConfirmAdded.
  rewrite Hpeer, Hconn. apply Z.eqb_neq in Hmax. rewrite Hmax. cbn [negb].
  assert (p2p.requests
            (server match TopicPool.cache p with
                    | Some c => cache_AddPeer c (peerInfo.node peer) (TopicPool.topic p) w
                    | None => w
                    end) = p2p.requests (server w)) as Hreq
    by (by destruct (TopicPool.cache p)).
  destruct (TopicPool.SearchRunning p) eqn:Hrun; cbn [andb].
  - destruct (TopicPool.connected p =? fst (TopicPool.limits p)).
    + destruct (Hopen Hrun) as [buf ->]. cbn [go.send mbind result_bind go.bind].
      eexists _, _. split; [reflexivity |]. by repeat split.
    + eexists _, _. split; [reflexivity |]. by repeat split.
  - eexists _, _. split; [reflexivity |]. by repeat split.
Qed.

Lemma ConfirmAdded_counts_a_peer_once_witness :
  TopicPool.connected (fst Example.reopened) = 1 /\
  exists p' w',
    TopicPool.ConfirmAdded (fst Example.reopened) 2%N (snd Example.reopened) = go.Ok (p', w') /\
    TopicPool.connected p' = 1.
Proof.
  split; [reflexivity |].
  destruct (ConfirmAdded_counts_a_peer_once (fst Example.reopened) 2%N
              (peerInfo.mk 1001 true false Example.n2) (snd Example.reopened))
    as (p' & w' & H & _ & Hc & _).
  - vm_compute. reflexivity.
  - reflexivity.
  - discriminate.
  - intros _. eexists. vm_compute. reflexivity.
  - exists p', w'. split; [exact H |]. rewrite Hc. reflexivity.
Defined.

(** ** The period channel *)

Lemma step_not_running (c : call) (p : TopicPool.t) (w : World) :
  TopicPool.SearchRunning p = false ->
  exists p' w',
    step c p w = go.Ok (p', w') /\
    TopicPool.period p' = TopicPool.period p /\
    TopicPool.SearchRunning p' = false.
Proof.
  intros Hrun. destruct c as [nodeID | nodeID reason order | node]; cbn [step].
  - unfold TopicPool.ConfirmAdded.
    destruct (TopicPool.peers p !! nodeID) as [peer |]; [| by eexists _, _].
    destruct (TopicPool.connected p =? _); [by eexists _, _ |].
    set (p1 := if negb (peerInfo.connected peer) then _ else p).
    assert (TopicPool.SearchRunning p1 = false /\ TopicPool.period p1 = TopicPool.period p)
      as [Hrun1 Hper1] by (subst p1; by destruct (peerInfo.connected peer)).
    rewrite Hrun1. cbn [andb]. by eexists _, _.
  - unfold TopicPool.ConfirmDropped.
    destruct (TopicPool.peers p !! nodeID) as [peer |]; [| by eexists _, _].
    destruct (peerInfo.requested peer); [by eexists _, _ |].
    rewrite Hrun. cbn -[TopicPool.replacement].
    destruct (TopicPool.replacement _ _ _) as [r w1]. by eexists _, _.
  - unfold TopicPool.processFoundNode. cbn [Now fst snd].
    destruct (_ && _); by eexists _, _.
Qed.

(** X3: the period channel never receives a value unless the search is
    running: on a pool whose search is not running every sequence of
    ConfirmAdded, ConfirmDropped and processFoundNode calls returns, with the
    period channel as it was (nil, or closed by StopSearch) and the search
    still not running. *)
Theorem period_untouched_when_not_running
    (cs : list call) (p : TopicPool.t) (w : World) :
  TopicPool.SearchRunning p = false ->
  exists p' w',
    run cs p w = go.Ok (p', w') /\
    TopicPool.period p' = TopicPool.period p /\
    TopicPool.SearchRunning p' = false.
Proof.
  revert p w. induction cs as [| c cs IH]; intros p w Hrun; cbn [run].
  - by eexists _, _.
  - destruct (step_not_running c p w Hrun) as (p1 & w1 & -> & Hper1 & Hrun1).
    cbn. destruct (IH p1 w1 Hrun1) as (p' & w' & -> & Hper' & Hrun').
    exists p', w'. repeat split; [congruence | exact Hrun'].
Qed.

Lemma period_untouched_when_not_running_witness :
  exists p' w',
    run [CallProcessFoundNode Example.n1; CallConfirmAdded 1%N; CallConfirmDropped 1%N "" []]
      Example.fresh Example.world0 = go.Ok (p', w') /\
    TopicPool.period p' = go.ChanNil.
Proof.
  destruct (period_untouched_when_not_running
              [CallProcessFoundNode Example.n1; CallConfirmAdded 1%N;
               CallConfirmDropped 1%N "" []]
              Example.fresh Example.world0)
    as (p' & w' & H & Hper & _).
  - reflexivity.
  - exists p', w'. split; [exact H | exact Hper].
Defined.

(** X4: the period updates are triggered at limits[0] only.  ConfirmAdded,
    when it returns, has sent slowSync if the node is tracked, the counter
    was not at limits[1], the search is running and the counter is at
    limits[0] after the call (also when the call did not change it), and
    has left the period channel alone otherwise.  ConfirmDropped, when it
    returns, has sent fastSync if the node is tracked and not requested, the
    search is running and the counter was at limits[0] before the call, and
    has left the channel alone otherwise. *)
Theorem period_updates_at_min :
  (forall (p p' : TopicPool.t) (nodeID : discover.NodeID) (w w' : World),
      TopicPool.ConfirmAdded p nodeID w = go.Ok (p', w') ->
      if bool_decide (is_Some (TopicPool.peers p !! nodeID))
         && negb (TopicPool.connected p =? snd (TopicPool.limits p))
         && TopicPool.SearchRunning p
         && (TopicPool.connected p' =? fst (TopicPool.limits p))
      then go.send (TopicPool.period p) (TopicPool.slowSync p) = go.Ok (TopicPool.period p')
      else TopicPool.period p' = TopicPool.period p) /\
  (forall (p p' : TopicPool.t) (nodeID : discover.NodeID) (reason : string)
          (order : list discv5.NodeID) (w w' : World)
          (replaced : option peerInfo.t) (ignored : bool),
      TopicPool.ConfirmDropped p nodeID reason order w = go.Ok (replaced, ignored, p', w') ->
      if match TopicPool.peers p !! nodeID with
         | Some peer => negb (peerInfo.requested peer)
         | None => false
         end
         && TopicPool.SearchRunning p
         && (TopicPool.connected p =? fst (TopicPool.limits p))
      then go.send (TopicPool.period p) (TopicPool.fastSync p) = go.Ok (TopicPool.period p')
      else TopicPool.period p' = TopicPool.period p).
Proof.
  split.
  - intros p p' nodeID w w'. unfold TopicPool.ConfirmAdded.
    destruct (TopicPool.peers p !! nodeID) as [peer |] eqn:Hpeer.
    2: { intros [= <- <-]. rewrite bool_decide_eq_false_2; [reflexivity |].
         intros [? ?]. discriminate. }
    rewrite bool_decide_eq_true_2 by (by eexists).
    destruct (TopicPool.connected p =? snd _) eqn:Hmax; [by intros [= <- <-] |].
    cbn [negb andb].
    set (p1 := if negb (peerInfo.connected peer) then _ else p).
    assert (TopicPool.SearchRunning p1 = TopicPool.SearchRunning p /\
            TopicPool.period p1 = TopicPool.period p /\
            TopicPool.limits p1 = TopicPool.limits p /\
            TopicPool.slowSync p1 = TopicPool.slowSync p) as (Hr1 & Hp1 & Hl1 & Hs1)
      by (subst p1; by destruct (peerInfo.connected peer)).
    rewrite Hr1, Hl1, Hp1, Hs1.
    destruct (TopicPool.SearchRunning p); cbn [andb].
    + destruct (TopicPool.connected p1 =? _) eqn:Hmin.
      * destruct (go.send _ _) as [c |] eqn:Hsend; [| discriminate].
        cbn. intros [= <- <-]. cbn. by rewrite Hmin.
      * intros [= <- <-]. by rewrite Hmin.
    + by intros [= <- <-].
  - intros p p' nodeID reason order w w' replaced ignored. unfold TopicPool.ConfirmDropped.
    destruct (TopicPool.peers p !! nodeID) as [peer |]; [| by intros [= <- <- <- <-]].
    destruct (peerInfo.requested peer); [by intros [= <- <- <- <-] |]. cbn [negb andb].
    destruct (TopicPool.SearchRunning p && _).
    + destruct (go.send _ _) as [c |] eqn:Hsend; [| discriminate].
      cbn -[TopicPool.replacement]. destruct (TopicPool.replacement _ _ _) as [r w1].
      by intros [= <- <- <- <-].
    + cbn -[TopicPool.replacement]. destruct (TopicPool.replacement _ _ _) as [r w1].
      by intros [= <- <- <- <-].
Qed.

Lemma period_updates_at_min_witness :
  (exists p' w',
      TopicPool.ConfirmAdded (fst (Example.after [CallProcessFoundNode Example.n1])) 1%N
        (snd (Example.after [CallProcessFoundNode Example.n1])) = go.Ok (p', w') /\
      TopicPool.period p' = go.ChanOpen [DefaultSlowSync]) /\
  (exists replaced ignored p' w',
      TopicPool.ConfirmDropped (fst Example.reopened) 2%N "" [] (snd Example.reopened)
      = go.Ok (replaced, ignored, p', w') /\
      TopicPool.period p' = go.ChanOpen [DefaultSlowSync; DefaultFastSync]).
Proof.
  split.
  - eexists _, _. split; [vm_compute; reflexivity |].
    pose proof (proj1 period_updates_at_min
                  (fst (Example.after [CallProcessFoundNode Example.n1])) _ 1%N
                  (snd (Example.after [CallProcessFoundNode Example.n1])) _
                  ltac:(vm_compute; reflexivity)) as H.
    vm_compute in H. symmetry.
    exact (f_equal (fun r => match r with go.Ok c => c | go.Fault _ => go.ChanNil end) H).
  - eexists _, _, _, _. split; [vm_compute; reflexivity |].
    pose proof (proj2 period_updates_at_min (fst Example.reopened) _ 2%N "" []
                  (snd Example.reopened) _ _ _ ltac:(vm_compute; reflexivity)) as H.
    vm_compute in H. symmetry.
    exact (f_equal (fun r => match r with go.Ok c => c | go.Fault _ => go.ChanNil end) H).
Defined.

(** ** processFoundNode *)

(** X5: processFoundNode changes one entry of the table and nothing else
    of the pool.  The entry of the node gets the reading of the clock as
    discoveredTime; an entry that was there keeps its connected and
    requested flags and its node (the address it was first found at), a
    new one starts with both flags false.  The counter and every other entry
    are as before, and the server is asked to add the peer exactly when the
    counter is below limits[1] and the entry is not connected. *)
Theorem processFoundNode_effect (p : TopicPool.t) (node : discv5.Node) (w : World) :
  exists info,
    TopicPool.peers (fst (TopicPool.processFoundNode p node w)) !! discv5.ID node = Some info /\
    peerInfo.discoveredTime info = mclock.readings (clock w) (mclock.reads (clock w)) /\
    match TopicPool.peers p !! discv5.ID node with
    | Some old =>
      peerInfo.connected info = peerInfo.connected old /\
      peerInfo.requested info = peerInfo.requested old /\
      peerInfo.node info = peerInfo.node old
    | None =>
      peerInfo.connected info = false /\
      peerInfo.requested info = false /\
      peerInfo.node info = node
    end /\
    (forall k, k <> discv5.ID node ->
       TopicPool.peers (fst (TopicPool.processFoundNode p node w)) !! k
       = TopicPool.peers p !! k) /\
    TopicPool.connected (fst (TopicPool.processFoundNode p node w)) = TopicPool.connected p /\
    TopicPool.period (fst (TopicPool.processFoundNode p node w)) = TopicPool.period p /\
    p2p.requests (server (snd (TopicPool.processFoundNode p node w)))
    = p2p.requests (server w)
      ++ (if (TopicPool.connected p <? snd (TopicPool.limits p))
             && negb (peerInfo.connected info)
          then [p2p.AddPeer (dialled info)] else []).
Proof.
  unfold TopicPool.processFoundNode. cbn [Now fst snd mclock.Now].
  set (info := match TopicPool.peers p !! discv5.ID node with
               | Some info => _
               | None => _
               end).
  exists info.
  assert (peerInfo.discoveredTime info = mclock.readings (clock w) (mclock.reads (clock w)) /\
          match TopicPool.peers p !! discv5.ID node with
          | Some old =>
            peerInfo.connected info = peerInfo.connected old /\
            peerInfo.requested info = peerInfo.requested old /\
            peerInfo.node info = peerInfo.node old
          | None =>
            peerInfo.connected info = false /\
            peerInfo.requested info = false /\
            peerInfo.node info = node
          end) as [Htime Hflags]
    by (subst info; by destruct (TopicPool.peers p !! discv5.ID node)).
  cbn [TopicPool.connected TopicPool.limits TopicPool.set_peers].
  destruct ((TopicPool.connected p <? snd (TopicPool.limits p))
            && negb (peerInfo.connected info)); cbn.
  - split; [apply lookup_insert_eq |]. split; [exact Htime |]. split; [exact Hflags |].
    split; [intros k Hk; by apply lookup_insert_ne |]. by repeat split.
  - split; [apply lookup_insert_eq |]. split; [exact Htime |]. split; [exact Hflags |].
    split; [intros k Hk; by apply lookup_insert_ne |].
    repeat split. by rewrite app_nil_r.
Qed.

Lemma processFoundNode_effect_witness :
  exists info,
    TopicPool.peers
      (fst (TopicPool.processFoundNode (fst Example.full) Example.n3 (snd Example.full)))
      !! 3%N = Some info /\
    peerInfo.discoveredTime info = 1003 /\
    TopicPool.connected
      (fst (TopicPool.processFoundNode (fst Example.full) Example.n3 (snd Example.full))) = 2.
Proof.
  destruct (processFoundNode_effect (fst Example.full) Example.n3 (snd Example.full))
    as (info & Hl & Ht & _ & _ & Hc & _).
  exists info. split; [exact Hl |]. split.
  - rewrite Ht. vm_compute. reflexivity.
  - rewrite Hc. vm_compute. reflexivity.
Defined.

(** ** More on the replacement step *)

Lemma replacement_finds (peers : gmap discv5.NodeID peerInfo.t) (order : list discv5.NodeID)
    (k : discv5.NodeID) (info : peerInfo.t) :
  forall (w : World),
    k ∈ order ->
    peers !! k = Some info ->
    peerInfo.connected info = false ->
    (forall j, (mclock.reads (clock w) <= j < mclock.reads (clock w) + length order)%nat ->
       mclock.readings (clock w) j
         < go.wrap64 (peerInfo.discoveredTime info + expirationPeriod)) ->
    is_Some (fst (TopicPool.replacement peers order w)).
Proof.
  induction order as [| k' order IH]; intros w Hin Hk Hconn Hfresh.
  - by apply elem_of_nil in Hin.
  - cbn -[expirationPeriod].
    destruct (decide (k' = k)) as [-> | Hne].
    + rewrite Hk, Hconn. cbn -[expirationPeriod].
      pose proof (Hfresh (mclock.reads (clock w)) ltac:(cbn; lia)) as Hlt.
      apply Z.ltb_lt in Hlt. rewrite Hlt. by eexists.
    + apply elem_of_cons in Hin as [-> | Hin]; [done |].
      assert (forall j, (mclock.reads (clock w) <= j < mclock.reads (clock w) + length order)%nat ->
                mclock.readings (clock w) j
                  < go.wrap64 (peerInfo.discoveredTime info + expirationPeriod)) as Hfresh'.
      { intros j Hj. apply Hfresh. cbn. lia. }
      destruct (peers !! k') as [peer |]; [| by apply IH].
      destruct (peerInfo.connected peer); cbn -[expirationPeriod]; [by apply IH |].
      destruct (_ <? _); [by eexists |].
      apply IH; try done. cbn. intros j Hj. apply Hfresh. cbn. lia.
Qed.

(** X6: ConfirmDropped finds a replacement when there is one.  If the range
    over the remaining table visits a PeerInfo that is not connected and
    whose discoveredTime plus expirationPeriod (in int64) is later than the
    readings of the clock the loop can take (one for each key visited at
    most), the call returns some peer with ignored false. *)
Theorem ConfirmDropped_finds_replacement
    (p : TopicPool.t) (nodeID k : discover.NodeID) (reason : string)
    (order : list discv5.NodeID) (peer info : peerInfo.t) (w : World) :
  TopicPool.peers p !! nodeID = Some peer ->
  peerInfo.requested peer = false ->
  period_open p ->
  k <> nodeID ->
  k ∈ order ->
  TopicPool.peers p !! k = Some info ->
  peerInfo.connected info = false ->
  (forall j, (mclock.reads (clock w) <= j < mclock.reads (clock w) + length order)%nat ->
     mclock.readings (clock w) j
       < go.wrap64 (peerInfo.discoveredTime info + expirationPeriod)) ->
  exists replacement p' w',
    TopicPool.ConfirmDropped p nodeID reason order w
    = go.Ok (Some replacement, false, p', w').
Proof.
  intros Hpeer Hreq Hopen Hne Hin Hk Hconn Hfresh.
  unfold TopicPool.ConfirmDropped. rewrite Hpeer, Hreq.
  set (sent := if TopicPool.SearchRunning p && _ then _ else _).
  assert (exists p1, sent = go.Ok p1 /\ TopicPool.peers p1 = TopicPool.peers p /\
                     TopicPool.cache p1 = TopicPool.cache p) as (p1 & -> & Hp1 & Hc1).
  { subst sent. destruct (TopicPool.SearchRunning p) eqn:Hrun; cbn; [| by exists p].
    destruct (_ =? _); [| by exists p].
    destruct (Hopen Hrun) as [buf ->]. cbn. by eexists. }
  cbn -[TopicPool.replacement expirationPeriod]. rewrite Hp1.
  set (w1 := match TopicPool.cache p1 with
             | Some c => cache_RemovePeer c nodeID (TopicPool.topic p1) (TopicPool.removePeer peer w)
             | None => TopicPool.removePeer peer w
             end).
  assert (clock w1 = clock w) as Hclk by (subst w1; by destruct (TopicPool.cache p1)).
  destruct (replacement_finds (delete nodeID (TopicPool.peers p)) order k info w1)
    as [r Hr]; try done.
  { by rewrite lookup_delete_ne. }
  { by rewrite Hclk. }
  destruct (TopicPool.replacement _ order w1) as [found w']. cbn in Hr. subst found.
  by eexists _, _, _.
Qed.

Lemma ConfirmDropped_finds_replacement_witness :
  exists replacement p' w',
    TopicPool.ConfirmDropped (fst Example.full) 1%N "" [2%N; 3%N] (snd Example.full)
    = go.Ok (Some replacement, false, p', w').
Proof.
  apply (ConfirmDropped_finds_replacement (fst Example.full) 1%N 3%N "" [2%N; 3%N]
           (peerInfo.mk 1000 true false Example.n1)
           (peerInfo.mk 1002 false false Example.n3) (snd Example.full)).
  - vm_compute. reflexivity.
  - reflexivity.
  - intros _. eexists. vm_compute. reflexivity.
  - discriminate.
  - apply elem_of_cons. right. apply elem_of_cons. by left.
  - vm_compute. reflexivity.
  - reflexivity.
  - intros j Hj. change (1000 + Z.of_nat j < 3600000001002).
    change (mclock.reads (clock (snd Example.full))) with 3%nat in Hj. cbn in Hj. lia.
Defined.

(** ** The counter over sequences of calls *)

Lemma step_returns (c : call) (p : TopicPool.t) (w : World) :
  period_open p ->
  exists p' w', step c p w = go.Ok (p', w') /\ period_open p'.
Proof.
  intros Hopen. destruct c as [nodeID | nodeID reason order | node]; cbn [step].
  - destruct (ConfirmAdded_keeps p nodeID w Hopen) as (p' & w' & -> & Hopen' & _).
    by exists p', w'.
  - destruct (ConfirmDropped_keeps p nodeID reason order w Hopen)
      as (? & ? & p' & w' & -> & Hopen' & _). by exists p', w'.
  - destruct (processFoundNode_keeps p node w Hopen) as [Hopen' _].
    destruct (TopicPool.processFoundNode p node w) as [p' w']. by exists p', w'.
Qed.

(* What a call can do to the counter: nothing, one up when it is not at
   limits[1], or one down. *)
Lemma step_counter (c : call) (p p' : TopicPool.t) (w w' : World) :
  step c p w = go.Ok (p', w') ->
  TopicPool.limits p' = TopicPool.limits p /\
  (TopicPool.connected p' = TopicPool.connected p \/
   (TopicPool.connected p <> snd (TopicPool.limits p) /\
    TopicPool.connected p' = go.wrap64 (TopicPool.connected p + 1)) \/
   TopicPool.connected p' = go.wrap64 (TopicPool.connected p - 1)).
Proof.
  destruct c as [nodeID | nodeID reason order | node]; cbn [step].
  - unfold TopicPool.ConfirmAdded.
    destruct (TopicPool.peers p !! nodeID) as [peer |]; [| intros [= <- <-]; auto].
    destruct (TopicPool.connected p =? snd _) eqn:Hmax; [intros [= <- <-]; auto |].
    apply Z.eqb_neq in Hmax.
    set (p1 := if negb (peerInfo.connected peer) then _ else p).
    assert (TopicPool.limits p1 = TopicPool.limits p /\
            (TopicPool.connected p1 = TopicPool.connected p \/
             TopicPool.connected p1 = go.wrap64 (TopicPool.connected p + 1))) as [Hl Hc]
      by (subst p1; destruct (peerInfo.connected peer); cbn; auto).
    destruct (TopicPool.SearchRunning p1 && _).
    + destruct (go.send _ _); [| discriminate]. cbn. intros [= <- <-]. cbn.
      split; [exact Hl |]. destruct Hc; auto.
    + intros [= <- <-]. split; [exact Hl |]. destruct Hc; auto.
  - unfold TopicPool.ConfirmDropped.
    destruct (TopicPool.peers p !! nodeID) as [peer |]; [| cbn; intros [= <- <-]; auto].
    destruct (peerInfo.requested peer); [cbn; intros [= <- <-]; auto |].
    set (sent := if TopicPool.SearchRunning p && _ then _ else _).
    assert (sent = go.Ok p \/ (exists c, sent = go.Ok (TopicPool.set_period c p)) \/
            exists f, sent = go.Fault f) as [-> | [[c ->] | [f ->]]].
    { subst sent. destruct (TopicPool.SearchRunning p && _); [| auto].
      destruct (go.send _ _); cbn; eauto. }
    + cbn -[TopicPool.replacement]. destruct (TopicPool.replacement _ _ _).
      cbn. intros [= <- <-]. auto.
    + cbn -[TopicPool.replacement]. destruct (TopicPool.replacement _ _ _).
      cbn. intros [= <- <-]. auto.
    + discriminate.
  - unfold TopicPool.processFoundNode. cbn [Now fst snd].
    destruct (_ && _); intros [= <- <-]; auto.
Qed.

(** X7: whatever is confirmed, dropped or found, the counter never goes
    above limits[1]: from a pool whose counter is at most limits[1], every
    sequence of ConfirmAdded, ConfirmDropped and processFoundNode calls
    returns with the counter at most limits[1], and at least the counter
    it started with less the number of calls (int64 permitting). *)
Theorem connected_never_exceeds_max (cs : list call) (p : TopicPool.t) (w : World) :
  period_open p ->
  TopicPool.connected p <= snd (TopicPool.limits p) ->
  snd (TopicPool.limits p) < 2 ^ 63 ->
  - 2 ^ 63 + Z.of_nat (length cs) <= TopicPool.connected p ->
  exists p' w',
    run cs p w = go.Ok (p', w') /\
    TopicPool.limits p' = TopicPool.limits p /\
    TopicPool.connected p - Z.of_nat (length cs) <= TopicPool.connected p'
      <= snd (TopicPool.limits p').
Proof.
  revert p w. induction cs as [| c cs IH]; intros p w Hopen Hle Hmax Hlow; cbn [run].
  - eexists _, _. split; [reflexivity |]. cbn. split; [reflexivity | lia].
  - destruct (step_returns c p w Hopen) as (p1 & w1 & Hstep & Hopen1).
    rewrite Hstep. cbn [mbind result_bind go.bind fst snd].
    destruct (step_counter c p p1 w w1 Hstep) as [Hl1 Hc1].
    assert (TopicPool.connected p - 1 <= TopicPool.connected p1
            <= snd (TopicPool.limits p)) as Hb1.
    { cbn [length] in Hlow.
      destruct Hc1 as [-> | [[Hne ->] | ->]]; [lia | |];
        rewrite wrap64_id; unfold go.int64; lia. }
    destruct (IH p1 w1 Hopen1) as (p' & w' & -> & Hl' & Hb').
    + rewrite Hl1. lia.
    + by rewrite Hl1.
    + cbn [length] in Hlow. lia.
    + exists p', w'. split; [reflexivity |]. split; [congruence |].
      cbn [length]. rewrite Hl' in *. rewrite Hl1 in *. lia.
Qed.

Lemma connected_never_exceeds_max_witness :
  exists p' w',
    run [CallProcessFoundNode Example.n1; CallProcessFoundNode Example.n2;
         CallProcessFoundNode Example.n3; CallConfirmAdded 1%N; CallConfirmAdded 2%N;
         CallConfirmAdded 3%N; CallConfirmAdded 3%N]
      Example.fresh Example.world0 = go.Ok (p', w') /\
    TopicPool.connected p' <= 2.
Proof.
  destruct (connected_never_exceeds_max
              [CallProcessFoundNode Example.n1; CallProcessFoundNode Example.n2;
               CallProcessFoundNode Example.n3; CallConfirmAdded 1%N; CallConfirmAdded 2%N;
               CallConfirmAdded 3%N; CallConfirmAdded 3%N]
              Example.fresh Example.world0)
    as (p' & w' & H & Hl & Hb).
  - intros Hrun. discriminate Hrun.
  - cbn. lia.
  - cbn. lia.
  - cbn. lia.
  - exists p', w'. split; [exact H |]. rewrite Hl in Hb. cbn in Hb. lia.
Defined.

Lemma ConfirmDropped_of_connected_decrements
    (p p' : TopicPool.t) (nodeID : discover.NodeID) (reason : string)
    (order : list discv5.NodeID) (peer : peerInfo.t) (w w' : World)
    (replaced : option peerInfo.t) (ignored : bool) :
  TopicPool.peers p !! nodeID = Some peer ->
  peerInfo.requested peer = false ->
  peerInfo.connected peer = true ->
  TopicPool.ConfirmDropped p nodeID reason order w = go.Ok (replaced, ignored, p', w') ->
  TopicPool.connected p' = go.wrap64 (TopicPool.connected p - 1) /\
  connectedPeers p' = connectedPeers p - 1.
Proof.
  unfold TopicPool.ConfirmDropped, connectedPeers. intros Hpeer Hreq Hconn Hrun.
  rewrite Hpeer, Hreq in Hrun.
  set (sent := if TopicPool.SearchRunning p && _ then _ else _) in Hrun.
  assert (exists p1, sent = go.Ok p1 /\ TopicPool.peers p1 = TopicPool.peers p /\
                     TopicPool.connected p1 = TopicPool.connected p) as (p1 & Hsent & Hp1 & Hc1).
  { subst sent. destruct (TopicPool.SearchRunning p && _); [| by exists p].
    destruct (go.send _ _) as [c |]; [| discriminate]. by eexists. }
  rewrite Hsent in Hrun. cbn -[TopicPool.replacement] in Hrun.
  destruct (TopicPool.replacement _ _ _) as [r w1]. injection Hrun as <- <- <- <-.
  cbn. rewrite Hp1, Hc1. split; [reflexivity |].
  pose proof (count_delete_connected _ _ _ Hpeer Hconn). lia.
Qed.

(* A call keeps the counter equal to the number of connected entries, unless
   it is a ConfirmDropped for an entry that is neither requested nor
   connected. *)
Lemma step_keeps_count (c : call) (p p' : TopicPool.t) (w w' : World) :
  step c p w = go.Ok (p', w') ->
  drops_of_connected [c] p w = true ->
  TopicPool.connected p = connectedPeers p ->
  TopicPool.connected p <= snd (TopicPool.limits p) ->
  snd (TopicPool.limits p) < 2 ^ 63 - 1 ->
  TopicPool.connected p' = connectedPeers p'.
Proof.
  intros Hstep Hguard Hinv Hle Hmax.
  assert (0 <= TopicPool.connected p) as Hnn by (rewrite Hinv; unfold connectedPeers; lia).
  destruct c as [nodeID | nodeID reason order | node]; cbn [step] in Hstep.
  - eapply ConfirmAdded_keeps_count; eauto. lia.
  - destruct (TopicPool.ConfirmDropped p nodeID reason order w)
      as [[[[replaced ignored] p1] w1] |] eqn:Hdrop; [| discriminate].
    cbn in Hstep. injection Hstep as <- <-.
    cbn [drops_of_connected] in Hguard. apply andb_true_iff in Hguard as [Hguard _].
    destruct (TopicPool.peers p !! nodeID) as [peer |] eqn:Hpeer.
    + destruct (peerInfo.requested peer) eqn:Hreq.
      * unfold TopicPool.ConfirmDropped in Hdrop. rewrite Hpeer, Hreq in Hdrop.
        by injection Hdrop as <- <- <- <-.
      * cbn in Hguard.
        destruct (ConfirmDropped_of_connected_decrements _ _ _ _ _ _ _ _ _ _
                    Hpeer Hreq Hguard Hdrop) as [Hc Hn].
        rewrite Hc, Hn, wrap64_id; [lia |].
        assert (0 < connectedPeers p); [| unfold go.int64; lia].
        unfold connectedPeers in *.
        pose proof (count_delete_connected _ _ _ Hpeer Hguard). lia.
    + unfold TopicPool.ConfirmDropped in Hdrop. rewrite Hpeer in Hdrop.
      by injection Hdrop as <- <- <- <-.
  - injection Hstep as Hp. change p' with (fst (p', w')). rewrite <- Hp.
    by apply processFoundNode_keeps_count.
Qed.

(** X8: as long as drops are confirmed only for nodes whose PeerInfo is
    connected (or requested, or absent), the counter is the number of
    connected entries and lies within 0 and limits[1]: every such sequence
    of calls returns, and keeps both. *)
Theorem connected_counts_connected_entries (cs : list call) (p : TopicPool.t) (w : World) :
  period_open p ->
  TopicPool.connected p = connectedPeers p ->
  TopicPool.connected p <= snd (TopicPool.limits p) ->
  snd (TopicPool.limits p) < 2 ^ 63 - 1 ->
  drops_of_connected cs p w = true ->
  exists p' w',
    run cs p w = go.Ok (p', w') /\
    TopicPool.connected p' = connectedPeers p' /\
    0 <= TopicPool.connected p' <= snd (TopicPool.limits p').
Proof.
  revert p w. induction cs as [| c cs IH]; intros p w Hopen Hinv Hle Hmax Hguard; cbn [run].
  - eexists _, _. split; [reflexivity |]. cbn. split; [exact Hinv |].
    split; [rewrite Hinv; unfold connectedPeers; lia | exact Hle].
  - destruct (step_returns c p w Hopen) as (p1 & w1 & Hstep & Hopen1).
    rewrite Hstep. cbn [mbind result_bind go.bind fst snd].
    cbn [drops_of_connected] in Hguard. rewrite Hstep in Hguard.
    apply andb_true_iff in Hguard as [Hguard1 Hguard].
    assert (TopicPool.connected p1 = connectedPeers p1) as Hinv1.
    { apply (step_keeps_count c p p1 w w1 Hstep); try done.
      cbn [drops_of_connected]. rewrite Hguard1, Hstep. reflexivity. }
    destruct (step_counter c p p1 w w1 Hstep) as [Hl1 Hc1].
    assert (0 <= TopicPool.connected p) as Hnn by (rewrite Hinv; unfold connectedPeers; lia).
    assert (0 <= TopicPool.connected p1) as Hnn1
      by (rewrite Hinv1; unfold connectedPeers; lia).
    assert (TopicPool.connected p1 <= snd (TopicPool.limits p1)) as Hle1.
    { rewrite Hl1. destruct Hc1 as [-> | [[Hne Hc] | Hc]]; [lia | |];
        rewrite wrap64_id in Hc; unfold go.int64; lia. }
    apply (IH p1 w1); try done. by rewrite Hl1.
Qed.

Lemma connected_counts_connected_entries_witness :
  exists p' w',
    run [CallProcessFoundNode Example.n1; CallProcessFoundNode Example.n2;
         CallConfirmAdded 1%N; CallConfirmAdded 2%N; CallConfirmDropped 1%N "" [2%N];
         CallProcessFoundNode Example.n1; CallConfirmAdded 1%N]
      Example.fresh Example.world0 = go.Ok (p', w') /\
    TopicPool.connected p' = connectedPeers p' /\
    0 <= TopicPool.connected p' <= snd (TopicPool.limits p').
Proof.
  apply connected_counts_connected_entries.
  - intros Hrun. discriminate Hrun.
  - reflexivity.
  - cbn. lia.
  - cbn. lia.
  - vm_compute. reflexivity.
Defined.

(** X9: the decrement of ConfirmDropped does not look at the connected flag.
    For a node whose PeerInfo is neither requested nor connected, a call that
    returns has taken the counter one down (in int arithmetic) and has left
    the number of connected entries as it was. *)
Theorem ConfirmDropped_decrements_for_unconnected
    (p p' : TopicPool.t) (nodeID : discover.NodeID) (reason : string)
    (order : list discv5.NodeID) (peer : peerInfo.t) (w w' : World)
    (replaced : option peerInfo.t) (ignored : bool) :
  TopicPool.peers p !! nodeID = Some peer ->
  peerInfo.requested peer = false ->
  peerInfo.connected peer = false ->
  TopicPool.ConfirmDropped p nodeID reason order w = go.Ok (replaced, ignored, p', w') ->
  TopicPool.connected p' = go.wrap64 (TopicPool.connected p - 1) /\
  connectedPeers p' = connectedPeers p /\
  TopicPool.peers p' !! nodeID = None.
Proof.
  unfold TopicPool.ConfirmDropped, connectedPeers. intros Hpeer Hreq Hconn Hrun.
  rewrite Hpeer, Hreq in Hrun.
  set (sent := if TopicPool.SearchRunning p && _ then _ else _) in Hrun.
  assert (exists p1, sent = go.Ok p1 /\ TopicPool.peers p1 = TopicPool.peers p /\
                     TopicPool.connected p1 = TopicPool.connected p) as (p1 & Hsent & Hp1 & Hc1).
  { subst sent. destruct (TopicPool.SearchRunning p && _); [| by exists p].
    destruct (go.send _ _) as [c |]; [| discriminate]. by eexists. }
  rewrite Hsent in Hrun. cbn -[TopicPool.replacement] in Hrun.
  destruct (TopicPool.replacement _ _ _) as [r w1]. injection Hrun as <- <- <- <-.
  cbn. rewrite Hp1, Hc1. split; [reflexivity |].
  split; [by rewrite (count_delete_unconnected _ _ _ Hpeer Hconn) | apply lookup_delete_eq].
Qed.

Lemma ConfirmDropped_decrements_for_unconnected_witness :
  TopicPool.connected (fst Example.full) = 2 /\
  connectedPeers (fst Example.full) = 2 /\
  exists replaced ignored p' w',
    TopicPool.ConfirmDropped (fst Example.full) 3%N "" [1%N; 2%N] (snd Example.full)
    = go.Ok (replaced, ignored, p', w') /\
    TopicPool.connected p' = 1 /\
    connectedPeers p' = 2.
Proof.
  split; [reflexivity |]. split; [reflexivity |].
  destruct (TopicPool.ConfirmDropped (fst Example.full) 3%N "" [1%N; 2%N] (snd Example.full))
    as [[[[replaced ignored] p'] w'] |] eqn:Hdrop; [| by vm_compute in Hdrop].
  destruct (ConfirmDropped_decrements_for_unconnected (fst Example.full) p' 3%N "" [1%N; 2%N]
              (peerInfo.mk 1002 false false Example.n3) (snd Example.full) w' replaced ignored)
    as (Hc & Hn & _).
  - vm_compute. reflexivity.
  - reflexivity.
  - reflexivity.
  - exact Hdrop.
  - exists replaced, ignored, p', w'. split; [reflexivity |]. rewrite Hc, Hn. by split.
Defined.

(** * Starting and stopping the search *)

Lemma seed_open (cached : list discv5.Node) :
  forall buf, TopicPool.seed (go.ChanOpen buf) cached = go.Ok (go.ChanOpen (buf ++ cached)).
Proof.
  induction cached as [| node cached IH]; intros buf; cbn.
  - by rewrite app_nil_r.
  - rewrite IH, <- app_assoc. reflexivity.
Qed.

Lemma StartSearch_returns (p : TopicPool.t) (w : World) :
  exists err p' w',
    TopicPool.StartSearch p w = go.Ok (err, p', w') /\
    TopicPool.peers p' = TopicPool.peers p /\
    TopicPool.connected p' = TopicPool.connected p /\
    p2p.DiscV5 (server w') = p2p.DiscV5 (server w) /\
    (TopicPool.SearchRunning p = true -> p' = p /\ w' = w) /\
    (err = None -> TopicPool.SearchRunning p' = true) /\
    (searching p -> searching p').
Proof.
  unfold TopicPool.StartSearch, TopicPool.SearchRunning.
  destruct (TopicPool.running p =? 1) eqn:Hrun.
  { eexists _, _, _. split; [reflexivity |]. split_and!; done. }
  destruct (p2p.DiscV5 (server w)) as [ntab |] eqn:Hd.
  2: { eexists _, _, _. split; [reflexivity |]. split_and!; done. }
  cbn [TopicPool.cache TopicPool.set_quit TopicPool.set_period TopicPool.set_running
       TopicPool.topic].
  assert (exists found,
            match TopicPool.cache p with
            | Some c => TopicPool.seed go.make (cache_GetPeersRange c (TopicPool.topic p) 5 w)
            | None => go.Ok go.make
            end = go.Ok found) as [found ->].
  { destruct (TopicPool.cache p); [| by eexists]. unfold go.make. rewrite seed_open.
    by eexists. }
  cbn. eexists _, _, _. split; [reflexivity |]. cbn.
  split_and!; try done. intros _ _. split; [reflexivity | by eexists].
Qed.

(** X10: StartSearch always returns, with the peers table and the counter
    untouched.  On a running search it does nothing; without DiscoveryV5 on
    the server it returns ErrDiscv5NotRunning and does nothing; otherwise it
    sets the search running with an open quit channel, an open and empty
    period channel, the found channel holding the peers the cache gave for
    the topic (none without a cache), and one SearchTopic asked of the
    server. *)
Theorem StartSearch_outcomes (p : TopicPool.t) (w : World) :
  exists err p' w',
    TopicPool.StartSearch p w = go.Ok (err, p', w') /\
    TopicPool.peers p' = TopicPool.peers p /\
    TopicPool.connected p' = TopicPool.connected p /\
    if TopicPool.SearchRunning p then err = None /\ p' = p /\ w' = w
    else match p2p.DiscV5 (server w) with
         | None => err = Some ErrDiscv5NotRunning /\ p' = p /\ w' = w
         | Some _ =>
           err = None /\
           TopicPool.SearchRunning p' = true /\
           TopicPool.quit p' = go.SigOpen /\
           TopicPool.period p' = go.ChanOpen [] /\
           TopicPool.foundChan p' = go.ChanOpen (seeded p w) /\
           TopicPool.lookupChan p' = go.ChanOpen [] /\
           p2p.requests (server w')
           = p2p.requests (server w) ++ [p2p.SearchTopic (TopicPool.topic p)] /\
           caches w' = caches w
         end.
Proof.
  unfold TopicPool.StartSearch, TopicPool.SearchRunning, seeded.
  destruct (TopicPool.running p =? 1) eqn:Hrun.
  { eexists _, _, _. split; [reflexivity |]. by repeat split. }
  destruct (p2p.DiscV5 (server w)) as [ntab |] eqn:Hd.
  2: { eexists _, _, _. split; [reflexivity |]. by repeat split. }
  cbn [TopicPool.cache TopicPool.set_quit TopicPool.set_period TopicPool.set_running
       TopicPool.topic].
  destruct (TopicPool.cache p) as [c |].
  - unfold go.make. rewrite seed_open. cbn.
    eexists _, _, _. split; [reflexivity |]. by repeat split.
  - cbn. eexists _, _, _. split; [reflexivity |]. by repeat split.
Qed.

(** X11: the consumer starts with one period on the channel: after a
    StartSearch that set the search running, handleFoundPeers, before its
    loop, sends fastSync if the counter is below limits[0] and slowSync
    otherwise, and the period channel holds that one value. *)
Theorem first_period_after_StartSearch (p p' : TopicPool.t) (w w' : World) :
  TopicPool.SearchRunning p = false ->
  TopicPool.StartSearch p w = go.Ok (None, p', w') ->
  exists p'',
    TopicPool.handleFoundPeers_enter p' = go.Ok p'' /\
    TopicPool.period p''
    = go.ChanOpen [if TopicPool.connected p <? fst (TopicPool.limits p)
                   then TopicPool.fastSync p else TopicPool.slowSync p] /\
    TopicPool.peers p'' = TopicPool.peers p /\
    TopicPool.connected p'' = TopicPool.connected p.
Proof.
  intros Hrun. unfold TopicPool.StartSearch. unfold TopicPool.SearchRunning in Hrun.
  rewrite Hrun. destruct (p2p.DiscV5 (server w)); [| discriminate].
  cbn [TopicPool.cache TopicPool.set_quit TopicPool.set_period TopicPool.set_running
       TopicPool.topic].
  destruct (match TopicPool.cache p with
            | Some c => _
            | None => _
            end) as [found |]; [| discriminate].
  cbn. intros [= <- <-]. unfold TopicPool.handleFoundPeers_enter. cbn.
  eexists. split; [reflexivity |]. cbn. split; [| done].
  rewrite Z.ltb_antisym. by destruct (fst (TopicPool.limits p) <=? TopicPool.connected p).
Qed.

Lemma first_period_after_StartSearch_witness :
  exists p' w' p'',
    TopicPool.StartSearch Example.fresh Example.world0 = go.Ok (None, p', w') /\
    TopicPool.handleFoundPeers_enter p' = go.Ok p'' /\
    TopicPool.period p'' = go.ChanOpen [DefaultFastSync].
Proof.
  destruct (TopicPool.StartSearch Example.fresh Example.world0)
    as [[[err p'] w'] |] eqn:Hstart; [| by vm_compute in Hstart].
  assert (err = None) as -> by (vm_compute in Hstart; by injection Hstart as <- _ _).
  destruct (first_period_after_StartSearch Example.fresh p' Example.world0 w' eq_refl Hstart)
    as (p'' & Henter & Hper & _).
  exists p', w', p''. split; [reflexivity |]. split; [exact Henter | exact Hper].
Defined.

(** X12: stopping and starting the search again keeps what the pool knows.
    For a pool whose search is running on open channels, StopSearch returns
    with the search not running and both the quit and the period channel
    closed; a StartSearch after it, DiscoveryV5 being there, sets the search
    running again on fresh open channels; the peers table and the counter
    are the same throughout. *)
Theorem StopSearch_then_StartSearch (p : TopicPool.t) (w : World) (buf : list time.Duration) :
  TopicPool.SearchRunning p = true ->
  TopicPool.quit p = go.SigOpen ->
  TopicPool.period p = go.ChanOpen buf ->
  is_Some (p2p.DiscV5 (server w)) ->
  exists p1 p2 w2,
    TopicPool.StopSearch p = go.Ok p1 /\
    TopicPool.SearchRunning p1 = false /\
    TopicPool.quit p1 = go.SigClosed /\
    TopicPool.period p1 = go.ChanClosed buf /\
    TopicPool.StartSearch p1 w = go.Ok (None, p2, w2) /\
    TopicPool.SearchRunning p2 = true /\
    TopicPool.quit p2 = go.SigOpen /\
    TopicPool.period p2 = go.ChanOpen [] /\
    TopicPool.peers p2 = TopicPool.peers p /\
    TopicPool.connected p2 = TopicPool.connected p.
Proof.
  intros Hrun Hquit Hper [ntab Hd].
  unfold TopicPool.StopSearch. rewrite Hrun, Hquit. cbn. rewrite Hper. cbn.
  destruct (TopicPool.cache p) as [c |] eqn:Hc.
  - eexists _, _, _. split; [reflexivity |]. cbn.
    do 3 (split; [reflexivity |]).
    unfold TopicPool.StartSearch. cbn. rewrite Hd, Hc.
    unfold go.make. rewrite seed_open. cbn. split; [reflexivity |]. by repeat split.
  - eexists _, _, _. split; [reflexivity |]. cbn.
    do 3 (split; [reflexivity |]).
    unfold TopicPool.StartSearch. cbn. rewrite Hd, Hc. cbn.
    split; [reflexivity |]. by repeat split.
Qed.

Lemma StopSearch_then_StartSearch_witness :
  exists p1 p2 w2,
    TopicPool.StopSearch (fst Example.full) = go.Ok p1 /\
    TopicPool.StartSearch p1 (snd Example.full) = go.Ok (None, p2, w2) /\
    TopicPool.connected p2 = 2.
Proof.
  destruct (StopSearch_then_StartSearch (fst Example.full) (snd Example.full)
              [DefaultSlowSync])
    as (p1 & p2 & w2 & Hstop & _ & _ & _ & Hstart & _ & _ & _ & _ & Hc).
  - reflexivity.
  - reflexivity.
  - vm_compute. reflexivity.
  - by eexists.
  - exists p1, p2, w2. split; [exact Hstop |]. split; [exact Hstart |]. rewrite Hc. reflexivity.
Defined.

(** * Further properties of the peer pool *)

Lemma startTopics_creates (order : list discv5.Topic) :
  forall (p : PeerPool.t) (w : World),
    is_Some (p2p.DiscV5 (server w)) ->
    exists w',
      PeerPool.startTopics p order w
      = go.Ok (None,
               PeerPool.set_topics
                 (PeerPool.topics p ++ (started_topic p <$> visited p order)) p,
               w') /\
      p2p.requests (server w')
      = p2p.requests (server w) ++ (p2p.SearchTopic ∘ fst <$> visited p order) /\
      p2p.DiscV5 (server w') = p2p.DiscV5 (server w) /\
      p2p.Self (server w') = p2p.Self (server w) /\
      caches w' = caches w /\
      clock w' = clock w.
Proof.
  induction order as [| topic order IH]; intros p w Hd; cbn [PeerPool.startTopics].
  - exists w. unfold visited. cbn. rewrite !app_nil_r.
    split; [by destruct p |]. by repeat split.
  - unfold visited. cbn [omap list_omap].
    destruct (PeerPool.config p !! topic) as [limits |] eqn:Hcfg; cbn [fmap option_fmap option_map].
    2: { apply IH. exact Hd. }
    destruct Hd as [ntab Hd].
    unfold TopicPool.StartSearch, TopicPool.NewTopicPool. cbn. rewrite Hd. cbn.
    set (w1 := ask (p2p.SearchTopic topic) w).
    set (p1 := PeerPool.set_topics _ p).
    destruct (IH p1 w1) as (w' & Hrun & Hreq & Hd' & Hs' & Hc' & Hk').
    { subst w1. cbn. rewrite Hd. by eexists. }
    exists w'. split.
    + rewrite Hrun. subst p1. unfold visited, started_topic. cbn.
      rewrite <- app_assoc. reflexivity.
    + subst w1 p1. cbn in *. rewrite Hreq. unfold visited. cbn.
      rewrite <- app_assoc. repeat split; congruence.
Qed.

Lemma visited_length (p : PeerPool.t) (order : list discv5.Topic) :
  order ≡ₚ fst <$> map_to_list (PeerPool.config p) ->
  length (visited p order) = size (PeerPool.config p).
Proof.
  intros Hperm.
  assert (Forall (fun topic => is_Some (PeerPool.config p !! topic)) order) as Hall.
  { apply Forall_forall. intros topic Hin. rewrite Hperm in Hin.
    apply list_elem_of_fmap in Hin as [[k v] [-> Hin]].
    apply elem_of_map_to_list in Hin. by eexists. }
  transitivity (length order).
  - clear Hperm. unfold visited.
    induction Hall as [| topic order [limits Hl] _ IH]; [done |].
    cbn. rewrite Hl. cbn. by rewrite IH.
  - rewrite (Permutation_length Hperm), length_fmap. apply length_map_to_list.
Qed.

(** X13: with DiscoveryV5 on the server Start returns without error.  It
    opens the quit channel, replaces the topic pools by one new pool for
    each configured topic in the order of the range, each with its search
    running, no peers and a counter of 0, asks one SearchTopic for each and
    then subscribes to the peer events.  The number of topic pools is the
    number of configured topics. *)
Theorem Start_creates_topic_pools (p : PeerPool.t) (order : list discv5.Topic) (w : World) :
  is_Some (p2p.DiscV5 (server w)) ->
  exists p' w',
    PeerPool.Start p order w = go.Ok (None, p', w') /\
    PeerPool.topics p' = started_topic p <$> visited p order /\
    PeerPool.quit p' = go.SigOpen /\
    PeerPool.serverSubscription p' = Some () /\
    PeerPool.config p' = PeerPool.config p /\
    PeerPool.stopOnMax p' = PeerPool.stopOnMax p /\
    p2p.requests (server w')
    = p2p.requests (server w) ++ (p2p.SearchTopic ∘ fst <$> visited p order)
      ++ [p2p.SubscribeEvents] /\
    p2p.DiscV5 (server w') = p2p.DiscV5 (server w) /\
    (order ≡ₚ fst <$> map_to_list (PeerPool.config p) ->
     length (PeerPool.topics p') = size (PeerPool.config p)).
Proof.
  intros Hd. unfold PeerPool.Start. destruct Hd as [ntab Hd]. rewrite Hd.
  destruct (startTopics_creates order
              (PeerPool.set_topics [] (PeerPool.set_quit go.SigOpen p)) w)
    as (w1 & Hrun & Hreq & Hd1 & _).
  { rewrite Hd. by eexists. }
  rewrite Hrun. cbn.
  eexists _, _. split; [reflexivity |]. cbn.
  split; [reflexivity |]. do 4 (split; [reflexivity |]).
  split; [by rewrite Hreq, <- app_assoc |]. split; [by rewrite Hd1 |].
  intros Hperm. rewrite length_fmap. by apply (visited_length p).
Qed.

Lemma Start_creates_topic_pools_witness :
  exists p' w',
    PeerPool.Start
      (PeerPool.NewPeerPool {["A" := (1, 2); "B" := (0, 1)]} DefaultFastSync DefaultSlowSync
         None true)
      ["B"; "A"] Example.world0 = go.Ok (None, p', w') /\
    length (PeerPool.topics p') = 2%nat.
Proof.
  destruct (Start_creates_topic_pools
              (PeerPool.NewPeerPool {["A" := (1, 2); "B" := (0, 1)]} DefaultFastSync
                 DefaultSlowSync None true)
              ["B"; "A"] Example.world0)
    as (p' & w' & H & _ & _ & _ & _ & _ & _ & _ & Hlen).
  - by eexists.
  - exists p', w'. split; [exact H |]. rewrite Hlen; [reflexivity |].
    apply (bool_decide_unpack _). vm_compute. exact I.
Defined.

Lemma StopSearch_stops (p : TopicPool.t) :
  searching p ->
  exists p',
    TopicPool.StopSearch p = go.Ok p' /\
    TopicPool.SearchRunning p' = false /\
    TopicPool.peers p' = TopicPool.peers p /\
    TopicPool.connected p' = TopicPool.connected p.
Proof.
  intros Hs. unfold TopicPool.StopSearch.
  destruct (TopicPool.SearchRunning p) eqn:Hrun; cbn [negb].
  - destruct (Hs Hrun) as [Hquit [buf Hper]]. rewrite Hquit. cbn. rewrite Hper. cbn.
    eexists. split; [reflexivity |]. by repeat split.
  - exists p. by repeat split.
Qed.






(** ** The dispatch of peer events *)

Lemma ConfirmAdded_frame (p p' : TopicPool.t) (nodeID : discover.NodeID) (w w' : World) :
  TopicPool.ConfirmAdded p nodeID w = go.Ok (p', w') ->
  TopicPool.running p' = TopicPool.running p /\
  TopicPool.quit p' = TopicPool.quit p /\
  p2p.DiscV5 (server w') = p2p.DiscV5 (server w).
Proof.
  unfold TopicPool.ConfirmAdded.
  destruct (TopicPool.peers p !! nodeID) as [peer |]; [| by intros [= <- <-]].
  assert (p2p.DiscV5
            (server match TopicPool.cache p with
                    | Some c => cache_AddPeer c (peerInfo.node peer) (TopicPool.topic p) w
                    | None => w
                    end) = p2p.DiscV5 (server w)) as Hd
    by (by destruct (TopicPool.cache p)).
  destruct (TopicPool.connected p =? snd _); [by intros [= <- <-] |].
  set (p1 := if negb (peerInfo.connected peer) then _ else p).
  assert (TopicPool.running p1 = TopicPool.running p /\
          TopicPool.quit p1 = TopicPool.quit p) as [Hr Hq]
    by (subst p1; by destruct (peerInfo.connected peer)).
  destruct (TopicPool.SearchRunning p1 && _).
  - destruct (go.send _ _); [| discriminate]. by intros [= <- <-].
  - by intros [= <- <-].
Qed.

Lemma confirmAdded_without_stopOnMax (nodeID : discover.NodeID) (topics : list TopicPool.t) :
  forall (total : Z) (w : World),
    Forall period_open topics ->
    exists topics' w',
      PeerPool.confirmAdded false nodeID topics total w = go.Ok (topics', total, w') /\
      TopicPool.running <$> topics' = TopicPool.running <$> topics /\
      TopicPool.quit <$> topics' = TopicPool.quit <$> topics /\
      p2p.DiscV5 (server w') = p2p.DiscV5 (server w).
Proof.
  induction topics as [| p topics IH]; intros total w Hall; cbn [PeerPool.confirmAdded].
  - by exists [], w.
  - apply Forall_cons in Hall as [Hp Hall].
    destruct (ConfirmAdded_keeps p nodeID w Hp) as (p1 & w1 & Hadd & _ & _).
    rewrite Hadd. cbn.
    destruct (ConfirmAdded_frame _ _ _ _ _ Hadd) as (Hr & Hq & Hd).
    destruct (IH total w1 Hall) as (topics' & w' & -> & Hrs & Hqs & Hd'). cbn.
    eexists _, _. split; [reflexivity |]. cbn. rewrite Hr, Hq, Hrs, Hqs.
    repeat split. congruence.
Qed.

(** X16: without stopOnMax an add event neither closes DiscoveryV5 nor
    stops a search.  The turn of the dispatch loop that takes a PeerAdd event
    goes through (the period channels of the running searches being open),
    the loop goes on with its variables unchanged, the DiscoveryV5 handle of
    the server is as before, and every topic pool has the running flag and
    the quit channel it had. *)
Theorem add_event_without_stopOnMax
    (bringup : option discv5.Network) (orders : nat -> list discv5.NodeID)
    (event : p2p.PeerEvent) (d : PeerPool.dispatch) (p : PeerPool.t) (w : World) :
  p2p.Type_ event = p2p.PeerEventTypeAdd ->
  PeerPool.stopOnMax p = false ->
  Forall period_open (PeerPool.topics p) ->
  exists p' w',
    PeerPool.handleServerPeers_turn bringup orders (PeerPool.SelEvent event) d p w
    = Some (go.Ok (true, d, p', w')) /\
    p2p.DiscV5 (server w') = p2p.DiscV5 (server w) /\
    TopicPool.running <$> PeerPool.topics p' = TopicPool.running <$> PeerPool.topics p /\
    TopicPool.quit <$> PeerPool.topics p' = TopicPool.quit <$> PeerPool.topics p.
Proof.
  intros Hadd Hstop Hall. unfold PeerPool.handleServerPeers_turn. rewrite Hadd, Hstop.
  destruct (confirmAdded_without_stopOnMax (p2p.Peer event) (PeerPool.topics p) 0 w Hall)
    as (topics' & w' & -> & Hrs & Hqs & Hd).
  cbn. rewrite Hstop. cbn. eexists _, _. split; [reflexivity |]. by repeat split.
Qed.

Lemma add_event_without_stopOnMax_witness :
  exists p' w',
    PeerPool.handleServerPeers_turn None (fun _ => []) (PeerPool.SelEvent (Example.added 1%N))
      Example.dispatch0
      (fst (Example.discovered Example.n1 (Example.started_pool None false Example.world0)))
      (snd (Example.discovered Example.n1 (Example.started_pool None false Example.world0)))
    = Some (go.Ok (true, Example.dispatch0, p', w')) /\
    p2p.DiscV5 (server w') = Some 0%nat.
Proof.
  destruct (add_event_without_stopOnMax None (fun _ => []) (Example.added 1%N)
              Example.dispatch0
              (fst (Example.discovered Example.n1
                      (Example.started_pool None false Example.world0)))
              (snd (Example.discovered Example.n1
                      (Example.started_pool None false Example.world0))))
    as (p' & w' & H & Hd & _).
  - reflexivity.
  - vm_compute. reflexivity.
  - vm_compute. constructor; [| constructor]. intros _. eexists. reflexivity.
  - exists p', w'. split; [exact H |]. rewrite Hd. vm_compute. reflexivity.
Defined.

Lemma confirmDropped_untracked (nodeID : discover.NodeID) (reason : string)
    (orders : nat -> list discv5.NodeID) (topics : list TopicPool.t) :
  forall (i : nat) (toSearch : list nat) (w : World),
    Forall (fun t => TopicPool.peers t !! nodeID = None) topics ->
    PeerPool.confirmDropped nodeID reason orders i topics toSearch w
    = go.Ok (topics, toSearch, w).
Proof.
  induction topics as [| p topics IH]; intros i toSearch w Hall; cbn [PeerPool.confirmDropped].
  - reflexivity.
  - apply Forall_cons in Hall as [Hp Hall].
    unfold TopicPool.ConfirmDropped. rewrite Hp. cbn.
    rewrite andb_false_r, (IH _ _ _ Hall). reflexivity.
Qed.

(** X17: a drop event for a node no topic pool tracks is ignored by all of
    them: with nothing queued for a new search (or without stopOnMax) the
    turn of the dispatch loop leaves the loop variables, the peer pool and
    the world as they were. *)
Theorem drop_event_for_untracked_node
    (bringup : option discv5.Network) (orders : nat -> list discv5.NodeID)
    (event : p2p.PeerEvent) (d : PeerPool.dispatch) (p : PeerPool.t) (w : World) :
  p2p.Type_ event = p2p.PeerEventTypeDrop ->
  Forall (fun t => TopicPool.peers t !! p2p.Peer event = None) (PeerPool.topics p) ->
  PeerPool.toSearch d = [] \/ PeerPool.stopOnMax p = false ->
  PeerPool.handleServerPeers_turn bringup orders (PeerPool.SelEvent event) d p w
  = Some (go.Ok (true, d, p, w)).
Proof.
  intros Hdrop Hall Hidle. unfold PeerPool.handleServerPeers_turn. rewrite Hdrop.
  rewrite (confirmDropped_untracked _ _ _ _ _ _ _ Hall). cbn.
  assert (negb (length (PeerPool.toSearch d) =? 0)%nat && PeerPool.stopOnMax p = false) as ->.
  { destruct Hidle as [-> | ->]; [reflexivity | apply andb_false_r]. }
  by destruct d, p.
Qed.

Lemma drop_event_for_untracked_node_witness :
  PeerPool.handleServerPeers_turn None (fun _ => [])
    (PeerPool.SelEvent (p2p.mkPeerEvent p2p.PeerEventTypeDrop 9%N "EOF"))
    Example.dispatch0
    (fst (Example.discovered Example.n1 (Example.started_pool None true Example.world0)))
    (snd (Example.discovered Example.n1 (Example.started_pool None true Example.world0)))
  = Some (go.Ok (true, Example.dispatch0,
                 fst (Example.discovered Example.n1
                        (Example.started_pool None true Example.world0)),
                 snd (Example.discovered Example.n1
                        (Example.started_pool None true Example.world0)))).
Proof.
  apply drop_event_for_untracked_node.
  - reflexivity.
  - vm_compute. constructor; [| constructor]. reflexivity.
  - left. reflexivity.
Defined.

Lemma ConfirmAdded_at_max (p : TopicPool.t) (nodeID : discover.NodeID) (w : World) :
  TopicPool.connected p = snd (TopicPool.limits p) ->
  exists p' w' rs,
    TopicPool.ConfirmAdded p nodeID w = go.Ok (p', w') /\
    TopicPool.connected p' = TopicPool.connected p /\
    TopicPool.limits p' = TopicPool.limits p /\
    TopicPool.running p' = TopicPool.running p /\
    TopicPool.quit p' = TopicPool.quit p /\
    TopicPool.period p' = TopicPool.period p /\
    p2p.DiscV5 (server w') = p2p.DiscV5 (server w) /\
    p2p.requests (server w') = p2p.requests (server w) ++ rs /\
    Forall is_RemovePeer rs.
Proof.
  intros Hmax. unfold TopicPool.ConfirmAdded.
  destruct (TopicPool.peers p !! nodeID) as [peer |].
  - apply Z.eqb_eq in Hmax. rewrite Hmax.
    eexists _, _, [_]. split; [reflexivity |]. cbn.
    repeat split; try by destruct (TopicPool.cache p).
    constructor; [by eexists | constructor].
  - exists p, w, []. rewrite app_nil_r. by repeat split.
Qed.

Lemma confirmAdded_at_max (nodeID : discover.NodeID) (topics : list TopicPool.t) :
  forall (total : Z) (w : World),
    Forall (fun t => TopicPool.connected t = snd (TopicPool.limits t) /\ searching t) topics ->
    0 <= total ->
    total + Z.of_nat (length topics) < 2 ^ 63 ->
    exists topics' w' rs,
      PeerPool.confirmAdded true nodeID topics total w
      = go.Ok (topics', total + Z.of_nat (length topics), w') /\
      Forall (fun t => TopicPool.SearchRunning t = false) topics' /\
      TopicPool.connected <$> topics' = TopicPool.connected <$> topics /\
      p2p.DiscV5 (server w') = p2p.DiscV5 (server w) /\
      p2p.requests (server w') = p2p.requests (server w) ++ rs /\
      Forall is_RemovePeer rs.
Proof.
  induction topics as [| p topics IH]; intros total w Hall Hnn Hsmall;
    cbn [PeerPool.confirmAdded].
  - exists [], w, []. cbn. rewrite Z.add_0_r, app_nil_r. by repeat split.
  - apply Forall_cons in Hall as [[Hmax Hs] Hall]. cbn [length] in Hsmall.
    rewrite Nat2Z.inj_succ in Hsmall.
    destruct (ConfirmAdded_at_max p nodeID w Hmax)
      as (p1 & w1 & rs1 & -> & Hc1 & Hl1 & Hr1 & Hq1 & Hp1 & Hd1 & Hreq1 & Hrs1).
    cbn [mbind result_bind go.bind andb].
    assert (TopicPool.MaxReached p1 = true) as ->
      by (unfold TopicPool.MaxReached; rewrite Hc1, Hl1; by apply Z.eqb_eq).
    destruct (StopSearch_stops p1) as (p2 & -> & Hrun2 & _ & Hc2).
    { unfold searching, TopicPool.SearchRunning in *. by rewrite Hr1, Hq1, Hp1. }
    cbn [mbind result_bind go.bind].
    rewrite wrap64_id by (unfold go.int64; lia).
    destruct (IH (total + 1) w1 Hall)
      as (topics' & w' & rs & -> & Hstopped & Hcs & Hd & Hreq & Hrs); [lia | lia |].
    cbn [mbind result_bind go.bind].
    exists (p2 :: topics'), w', (rs1 ++ rs). split; [f_equal; f_equal; f_equal; cbn [length]; lia |].
    split; [by constructor |]. split; [cbn; congruence |].
    split; [congruence |]. split; [by rewrite Hreq, Hreq1, app_assoc |].
    by apply Forall_app.
Qed.

(** X18: with stopOnMax, an add event that finds every topic pool at its
    maximum closes DiscoveryV5.  With one topic pool for each configured
    topic, each with its counter at limits[1], and a DiscoveryV5 handle on
    the server, the turn goes through: every search is stopped, the counters
    are as before, the server was asked to remove the added peer by the
    pools that track it and then Close was called on the handle, once,
    and the handle of the server is nil. *)
Theorem add_event_at_max_closes_discovery
    (bringup : option discv5.Network) (orders : nat -> list discv5.NodeID)
    (event : p2p.PeerEvent) (d : PeerPool.dispatch) (p : PeerPool.t) (w : World)
    (ntab : discv5.Network) :
  p2p.Type_ event = p2p.PeerEventTypeAdd ->
  PeerPool.stopOnMax p = true ->
  length (PeerPool.topics p) = size (PeerPool.config p) ->
  Z.of_nat (length (PeerPool.topics p)) < 2 ^ 63 ->
  Forall (fun t => TopicPool.connected t = snd (TopicPool.limits t) /\ searching t)
    (PeerPool.topics p) ->
  p2p.DiscV5 (server w) = Some ntab ->
  exists p' w' rs,
    PeerPool.handleServerPeers_turn bringup orders (PeerPool.SelEvent event) d p w
    = Some (go.Ok (true, d, p', w')) /\
    p2p.DiscV5 (server w') = None /\
    p2p.requests (server w') = p2p.requests (server w) ++ rs ++ [p2p.Close ntab] /\
    Forall is_RemovePeer rs /\
    Forall (fun t => TopicPool.SearchRunning t = false) (PeerPool.topics p') /\
    TopicPool.connected <$> PeerPool.topics p' = TopicPool.connected <$> PeerPool.topics p.
Proof.
  intros Hadd Hstop Hlen Hsmall Hall Hd. unfold PeerPool.handleServerPeers_turn.
  rewrite Hadd, Hstop.
  destruct (confirmAdded_at_max (p2p.Peer event) (PeerPool.topics p) 0 w Hall)
    as (topics' & w1 & rs & -> & Hstopped & Hcs & Hd1 & Hreq & Hrs); [lia | lia |].
  cbn [mbind result_bind go.bind PeerPool.stopOnMax PeerPool.set_topics PeerPool.config].
  rewrite Hstop, Hlen, Z.add_0_l, Z.eqb_refl. cbn [andb].
  unfold PeerPool.closeDiscV5. rewrite Hd1, Hd.
  cbn [mbind result_bind go.bind].
  eexists _, _, rs. split; [reflexivity |]. cbn.
  split; [reflexivity |]. split; [by rewrite Hreq, app_assoc |]. by repeat split.
Qed.

Lemma add_event_at_max_closes_discovery_witness :
  exists p' w' rs,
    PeerPool.handleServerPeers_turn None (fun _ => []) (PeerPool.SelEvent (Example.added 2%N))
      Example.dispatch0
      (fst (Example.confirmed 1%N
              (Example.discovered Example.n1
                 (Example.started_pool None true Example.world0))))
      (snd (Example.confirmed 1%N
              (Example.discovered Example.n1
                 (Example.started_pool None true Example.world0))))
    = Some (go.Ok (true, Example.dispatch0, p', w')) /\
    p2p.DiscV5 (server w') = None /\
    Forall is_RemovePeer rs.
Proof.
  destruct (add_event_at_max_closes_discovery None (fun _ => []) (Example.added 2%N)
              Example.dispatch0
              (fst (Example.confirmed 1%N
                      (Example.discovered Example.n1
                         (Example.started_pool None true Example.world0))))
              (snd (Example.confirmed 1%N
                      (Example.discovered Example.n1
                         (Example.started_pool None true Example.world0))))
              0%nat)
    as (p' & w' & rs & H & Hd & _ & Hrs & _).
  - reflexivity.
  - vm_compute. reflexivity.
  - vm_compute. reflexivity.
  - vm_compute. reflexivity.
  - vm_compute. constructor; [| constructor]. split; [reflexivity |].
    intros _. split; [reflexivity |]. eexists. reflexivity.
  - vm_compute. reflexivity.
  - exists p', w', rs. split; [exact H |]. split; [exact Hd | exact Hrs].
Defined.

(** ** runListener *)

Lemma StartSearch_with_discovery (p : TopicPool.t) (w : World) :
  is_Some (p2p.DiscV5 (server w)) ->
  exists p' w',
    TopicPool.StartSearch p w = go.Ok (None, p', w') /\
    TopicPool.SearchRunning p' = true /\
    TopicPool.peers p' = TopicPool.peers p /\
    TopicPool.connected p' = TopicPool.connected p /\
    (TopicPool.SearchRunning p = true -> p' = p) /\
    p2p.DiscV5 (server w') = p2p.DiscV5 (server w).
Proof.
  intros [ntab Hd]. unfold TopicPool.StartSearch, TopicPool.SearchRunning.
  destruct (TopicPool.running p =? 1) eqn:Hrun.
  { exists p, w. by repeat split. }
  rewrite Hd.
  cbn [TopicPool.cache TopicPool.set_quit TopicPool.set_period TopicPool.set_running
       TopicPool.topic].
  destruct (TopicPool.cache p) as [c |].
  - unfold go.make. rewrite seed_open. cbn.
    eexists _, _. split; [reflexivity |]. by repeat split.
  - cbn. eexists _, _. split; [reflexivity |]. by repeat split.
Qed.

Lemma startSearches_restarts (toSearch : list nat) :
  forall (topics : list TopicPool.t) (w : World),
    is_Some (p2p.DiscV5 (server w)) ->
    exists topics' w',
      PeerPool.startSearches toSearch topics w = go.Ok (topics', w') /\
      p2p.DiscV5 (server w') = p2p.DiscV5 (server w) /\
      length topics' = length topics /\
      forall i t,
        topics !! i = Some t ->
        exists t',
          topics' !! i = Some t' /\
          TopicPool.peers t' = TopicPool.peers t /\
          TopicPool.connected t' = TopicPool.connected t /\
          (TopicPool.SearchRunning t = true -> TopicPool.SearchRunning t' = true) /\
          (i ∈ toSearch -> TopicPool.SearchRunning t' = true) /\
          (i ∉ toSearch -> t' = t).
Proof.
  induction toSearch as [| i toSearch IH]; intros topics w Hd; cbn [PeerPool.startSearches].
  - exists topics, w. repeat split. intros i t Ht. exists t. repeat split; auto.
    intros Hin. by apply elem_of_nil in Hin.
  - destruct (topics !! i) as [tp |] eqn:Hi.
    + destruct (StartSearch_with_discovery tp w Hd)
        as (tp1 & w1 & -> & Hrun1 & Hp1 & Hc1 & Hsame1 & Hd1).
      cbn [mbind result_bind go.bind fst snd].
      destruct (IH (<[i := tp1]> topics) w1) as (topics' & w' & -> & Hd' & Hlen & Hall).
      { by rewrite Hd1. }
      exists topics', w'. split; [reflexivity |]. split; [congruence |].
      split; [by rewrite Hlen, length_insert |].
      intros j t Hj. destruct (decide (j = i)) as [-> | Hne].
      * assert (t = tp) as -> by congruence.
        destruct (Hall i tp1) as (t' & Ht' & Hp' & Hc' & Hr' & _ & _).
        { apply list_lookup_insert_eq. by eapply lookup_lt_Some. }
        exists t'. repeat split; try congruence; auto.
        intros Hnot. exfalso. apply Hnot. by left.
      * destruct (Hall j t) as (t' & Ht' & Hp' & Hc' & Hr' & Hin' & Hout').
        { by rewrite list_lookup_insert_ne. }
        exists t'. repeat split; auto.
        -- intros Hin. apply elem_of_cons in Hin as [-> | Hin]; [done | auto].
        -- intros Hnot. apply Hout'. intros Hin. apply Hnot. by right.
    + destruct (IH topics w Hd) as (topics' & w' & -> & Hd' & Hlen & Hall).
      exists topics', w'. repeat split; auto.
      intros j t Hj. destruct (Hall j t Hj) as (t' & Ht' & Hp' & Hc' & Hr' & Hin' & Hout').
      exists t'. repeat split; auto.
      * intros Hin. apply elem_of_cons in Hin as [-> | Hin]; [congruence | auto].
      * intros Hnot. apply Hout'. intros Hin. apply Hnot. by right.
Qed.

(** X19: runListener brings DiscoveryV5 back and restarts the queued
    searches only.  If the server has no handle and StartDiscv5 fails, it
    arms the retry timer and keeps the queue, the pools and the world as
    they are.  If the server has a handle, or StartDiscv5 gives one (which
    is then installed on the server), it returns with the queue empty: every
    queued topic pool has its search running, every other topic pool is
    untouched, and all keep their peers table and counter. *)
Theorem runListener_restarts_queued_searches
    (bringup : option discv5.Network) (d : PeerPool.dispatch) (p : PeerPool.t) (w : World) :
  (p2p.DiscV5 (server w) = None -> bringup = None ->
   PeerPool.runListener bringup d p w
   = go.Ok (PeerPool.mkDispatch (PeerPool.toSearch d) true, p, w)) /\
  (forall ntab,
      p2p.DiscV5 (server w) = Some ntab \/
      (p2p.DiscV5 (server w) = None /\ bringup = Some ntab) ->
      exists p' w',
        PeerPool.runListener bringup d p w
        = go.Ok (PeerPool.mkDispatch [] (PeerPool.retryDiscv5 d), p', w') /\
        p2p.DiscV5 (server w') = Some ntab /\
        length (PeerPool.topics p') = length (PeerPool.topics p) /\
        forall i t,
          PeerPool.topics p !! i = Some t ->
          exists t',
            PeerPool.topics p' !! i = Some t' /\
            TopicPool.peers t' = TopicPool.peers t /\
            TopicPool.connected t' = TopicPool.connected t /\
            (i ∈ PeerPool.toSearch d -> TopicPool.SearchRunning t' = true) /\
            (i ∉ PeerPool.toSearch d -> t' = t)).
Proof.
  split.
  - intros Hd ->. unfold PeerPool.runListener, PeerPool.StartDiscv5. by rewrite Hd.
  - intros ntab Hcase. unfold PeerPool.runListener, PeerPool.StartDiscv5.
    set (w0 := set_server (p2p.set_DiscV5 (Some ntab) (server w)) w).
    assert (exists w1, p2p.DiscV5 (server w1) = Some ntab /\
              match p2p.DiscV5 (server w) with
              | Some _ => w1 = w
              | None => w1 = w0 /\ bringup = Some ntab
              end) as (w1 & Hd1 & Hw1).
    { destruct Hcase as [Hd | [Hd ->]]; rewrite Hd; [by exists w | by exists w0]. }
    destruct (startSearches_restarts (PeerPool.toSearch d) (PeerPool.topics p) w1)
      as (topics' & w' & Hrun & Hd' & Hlen & Hall).
    { rewrite Hd1. by eexists. }
    exists (PeerPool.set_topics topics' p), w'.
    split.
    + destruct (p2p.DiscV5 (server w)).
      * subst w1. rewrite Hrun. reflexivity.
      * destruct Hw1 as [-> ->]. subst w0. rewrite Hrun. reflexivity.
    + split; [congruence |]. split; [exact Hlen |].
      intros i t Ht. destruct (Hall i t Ht) as (t' & Ht' & Hp' & Hc' & _ & Hin' & Hout').
      exists t'. by repeat split.
Qed.

Lemma runListener_restarts_queued_searches_witness :
  exists p' w',
    PeerPool.runListener (Some 1%nat) (PeerPool.mkDispatch [0%nat] false)
      (snd (fst (Example.turned
         (PeerPool.handleServerPeers_turn None (fun _ => [])
            (PeerPool.SelEvent (Example.added 1%N)) Example.dispatch0
            (fst (Example.discovered Example.n1
                    (Example.started_pool None true Example.world0)))
            (snd (Example.discovered Example.n1
                    (Example.started_pool None true Example.world0)))))))
      (snd (Example.turned
         (PeerPool.handleServerPeers_turn None (fun _ => [])
            (PeerPool.SelEvent (Example.added 1%N)) Example.dispatch0
            (fst (Example.discovered Example.n1
                    (Example.started_pool None true Example.world0)))
            (snd (Example.discovered Example.n1
                    (Example.started_pool None true Example.world0))))))
    = go.Ok (PeerPool.mkDispatch [] false, p', w') /\
    p2p.DiscV5 (server w') = Some 1%nat.
Proof.
  destruct (proj2 (runListener_restarts_queued_searches (Some 1%nat)
              (PeerPool.mkDispatch [0%nat] false)
              (snd (fst (Example.turned
                 (PeerPool.handleServerPeers_turn None (fun _ => [])
                    (PeerPool.SelEvent (Example.added 1%N)) Example.dispatch0
                    (fst (Example.discovered Example.n1
                            (Example.started_pool None true Example.world0)))
                    (snd (Example.discovered Example.n1
                            (Example.started_pool None true Example.world0)))))))
              (snd (Example.turned
                 (PeerPool.handleServerPeers_turn None (fun _ => [])
                    (PeerPool.SelEvent (Example.added 1%N)) Example.dispatch0
                    (fst (Example.discovered Example.n1
                            (Example.started_pool None true Example.world0)))
                    (snd (Example.discovered Example.n1
                            (Example.started_pool None true Example.world0)))))))
              1%nat)
    as (p' & w' & H & Hd & _).
  - right. split; [vm_compute; reflexivity | reflexivity].
  - exists p', w'. split; [exact H | exact Hd].
Defined.

(** * The loops and their quit channels *)

(** X20: the consumer never touches the counter and leaves its loop on quit
    only.  A turn of handleFoundPeers that goes through keeps the counter,
    the running flag and the period channel; it ends the loop exactly when
    it took the quit case, which is ready only once the quit channel is
    closed, and then it leaves the pool and the world as they are. *)
Theorem handleFoundPeers_turn_frame
    (sel : TopicPool.selected) (p p' : TopicPool.t) (w w' : World) (go_on : bool) :
  TopicPool.handleFoundPeers_turn sel p w = Some (go.Ok (go_on, p', w')) ->
  TopicPool.connected p' = TopicPool.connected p /\
  TopicPool.running p' = TopicPool.running p /\
  TopicPool.period p' = TopicPool.period p /\
  (go_on = false <-> sel = TopicPool.SelQuit) /\
  (go_on = false -> TopicPool.quit p = go.SigClosed /\ p' = p /\ w' = w).
Proof.
  unfold TopicPool.handleFoundPeers_turn. destruct sel.
  - destruct (TopicPool.quit p) eqn:Hq; cbn; try discriminate.
    intros [= <- <- <-]. by repeat split.
  - destruct (go.recv (TopicPool.lookupChan p)) as [[v c] |]; [| discriminate].
    intros [= <- <- <-]. cbn. repeat split; discriminate.
  - destruct (go.recv (TopicPool.foundChan p)) as [[[node |] c] |]; try discriminate.
    destruct (negb _).
    + unfold TopicPool.processFoundNode. cbn [Now fst snd].
      destruct (_ && _); intros [= <- <- <-]; cbn; repeat split; discriminate.
    + intros [= <- <- <-]. cbn. repeat split; discriminate.
Qed.

Lemma handleFoundPeers_turn_frame_witness :
  TopicPool.handleFoundPeers_turn TopicPool.SelFound Example.own_node_found Example.world0
  = Some (go.Ok (true, TopicPool.set_foundChan (go.ChanOpen [Example.n1]) Example.own_node_found,
                 Example.world0)) /\
  TopicPool.connected
    (TopicPool.set_foundChan (go.ChanOpen [Example.n1]) Example.own_node_found)
  = TopicPool.connected Example.own_node_found.
Proof.
  assert (TopicPool.handleFoundPeers_turn TopicPool.SelFound Example.own_node_found
            Example.world0
          = Some (go.Ok (true,
                         TopicPool.set_foundChan (go.ChanOpen [Example.n1])
                           Example.own_node_found,
                         Example.world0))) as H by reflexivity.
  split; [exact H |].
  exact (proj1 (handleFoundPeers_turn_frame _ _ _ _ _ _ H)).
Defined.

(** X21: closing the quit channels ends the loops.  While the quit channel
    of a started peer pool is open the quit case of handleServerPeers is not
    ready; once Stop has returned it is, and the turn that takes it ends the
    loop with nothing changed.  Likewise for the consumer of a topic pool
    and StopSearch. *)
Theorem quit_ends_the_loops :
  (forall (bringup : option discv5.Network) (orders : nat -> list discv5.NodeID)
          (d : PeerPool.dispatch) (p p' : PeerPool.t) (w w' : World),
      PeerPool.quit p = go.SigOpen ->
      PeerPool.Stop p w = go.Ok (p', w') ->
      PeerPool.handleServerPeers_turn bringup orders PeerPool.SelQuit d p w = None /\
      PeerPool.handleServerPeers_turn bringup orders PeerPool.SelQuit d p' w'
      = Some (go.Ok (false, d, p', w'))) /\
  (forall (p p' : TopicPool.t) (w : World),
      TopicPool.SearchRunning p = true ->
      TopicPool.quit p = go.SigOpen ->
      TopicPool.StopSearch p = go.Ok p' ->
      TopicPool.handleFoundPeers_turn TopicPool.SelQuit p w = None /\
      TopicPool.handleFoundPeers_turn TopicPool.SelQuit p' w
      = Some (go.Ok (false, p', w))).
Proof.
  split.
  - intros bringup orders d p p' w w' Hquit. unfold PeerPool.Stop. rewrite Hquit. cbn.
    destruct (PeerPool.serverSubscription p); [| discriminate].
    destruct (PeerPool.stopSearches _); [| discriminate]. cbn.
    intros [= <- <-]. by rewrite Hquit.
  - intros p p' w Hrun Hquit. unfold TopicPool.StopSearch. rewrite Hrun, Hquit. cbn.
    destruct (TopicPool.period p); try discriminate. cbn.
    intros [= <-]. by rewrite Hquit.
Qed.

Lemma quit_ends_the_loops_witness :
  (exists p' w',
      PeerPool.Stop (fst (Example.started_pool None true Example.world0))
                    (snd (Example.started_pool None true Example.world0)) = go.Ok (p', w') /\
      PeerPool.handleServerPeers_turn None (fun _ => []) PeerPool.SelQuit Example.dispatch0 p' w'
      = Some (go.Ok (false, Example.dispatch0, p', w'))) /\
  (exists p',
      TopicPool.StopSearch (fst Example.full) = go.Ok p' /\
      TopicPool.handleFoundPeers_turn TopicPool.SelQuit p' (snd Example.full)
      = Some (go.Ok (false, p', snd Example.full))).
Proof.
  split.
  - destruct (PeerPool.Stop (fst (Example.started_pool None true Example.world0))
                (snd (Example.started_pool None true Example.world0)))
      as [[p' w'] |] eqn:Hstop; [| by vm_compute in Hstop].
    assert (PeerPool.quit (fst (Example.started_pool None true Example.world0)) = go.SigOpen)
      as Hquit by (vm_compute; reflexivity).
    exists p', w'. split; [reflexivity |].
    exact (proj2 (proj1 quit_ends_the_loops None (fun _ => []) Example.dispatch0
                    _ _ _ _ Hquit Hstop)).
  - destruct (TopicPool.StopSearch (fst Example.full)) as [p' |] eqn:Hstop;
      [| by vm_compute in Hstop].
    assert (TopicPool.SearchRunning (fst Example.full) = true) as Hrun
      by (vm_compute; reflexivity).
    assert (TopicPool.quit (fst Example.full) = go.SigOpen) as Hquit
      by (vm_compute; reflexivity).
    exists p'. split; [reflexivity |].
    exact (proj2 (proj2 quit_ends_the_loops _ _ (snd Example.full) Hrun Hquit Hstop)).
Defined.

(** * The arguments of a transaction *)

Lemma equal_eq (a b : list Byte.byte) : transactions.equal a b = true <-> a = b.
Proof.
  revert b. induction a as [| x a IH]; intros [| y b]; cbn; try done.
  rewrite andb_true_iff, IH. split.
  - intros [Hxy ->]. by rewrite (Byte.byte_dec_bl _ _ Hxy).
  - intros [= -> ->]. split; [by apply Byte.byte_dec_lb | done].
Qed.

(** X22: for arguments that are Valid, GetInput is the payload whichever
    field carries it: it has the bytes of Input if Input is not empty and
    the bytes of Data if Data is not empty, and it is empty only if both
    are.  Arguments are invalid exactly when both fields are filled and
    differ, and GetInput then returns Input. *)
Theorem GetInput_of_valid_args (args : transactions.SendTxArgs) :
  (transactions.Valid args = true ->
   (transactions.isNilOrEmpty (transactions.Input args) = false ->
    transactions.content (transactions.GetInput args)
    = transactions.content (transactions.Input args)) /\
   (transactions.isNilOrEmpty (transactions.Data args) = false ->
    transactions.content (transactions.GetInput args)
    = transactions.content (transactions.Data args)) /\
   (transactions.isNilOrEmpty (transactions.GetInput args) = true ->
    transactions.isNilOrEmpty (transactions.Input args) = true /\
    transactions.isNilOrEmpty (transactions.Data args) = true)) /\
  (transactions.Valid args = false <->
   transactions.isNilOrEmpty (transactions.Input args) = false /\
   transactions.isNilOrEmpty (transactions.Data args) = false /\
   transactions.content (transactions.Input args)
   <> transactions.content (transactions.Data args)) /\
  (transactions.Valid args = false ->
   transactions.GetInput args = transactions.Input args).
Proof.
  unfold transactions.Valid, transactions.GetInput, transactions.bytes_Equal.
  destruct (transactions.isNilOrEmpty (transactions.Input args)) eqn:Hi;
    destruct (transactions.isNilOrEmpty (transactions.Data args)) eqn:Hd; cbn.
  - repeat split; try done. by intros (? & _).
  - repeat split; try done; try congruence. by intros (? & _).
  - repeat split; try done; try congruence. by intros (_ & ? & _).
  - split; [| split].
    + intros Heq. apply equal_eq in Heq. repeat split; congruence.
    + rewrite <- not_true_iff_false, equal_eq.
      split; [by intros ? | by intros (_ & _ & ?)].
    + done.
Qed.

Lemma GetInput_of_valid_args_witness :
  transactions.Valid
    (transactions.mkSendTxArgs 1%N None None None None None
       (Some []) (Some [Byte.x01; Byte.x02])) = true /\
  transactions.content
    (transactions.GetInput
       (transactions.mkSendTxArgs 1%N None None None None None
          (Some []) (Some [Byte.x01; Byte.x02])))
  = [Byte.x01; Byte.x02].
Proof.
  split; [reflexivity |].
  exact (proj1 (proj2 (proj1 (GetInput_of_valid_args
                                (transactions.mkSendTxArgs 1%N None None None None None
                                   (Some []) (Some [Byte.x01; Byte.x02])))
                         eq_refl)) eq_refl).
Defined.
